(** * Cause_Way: telemetry engine, verification judge and verification config

    A shallow embedding of [src/utils/telemetry.py], [src/verification/judge.py]
    and the [VerificationConfig] class of [src/config.py], followed by the
    properties of the specification that concern them.

    Modelling conventions.
    - Python [int] is [Z] (unbounded); [//] is [Z.div] (floor division).
    - Python [float] is modelled by exact rationals [Q]; [round(x, n)] is
      round-half-even to [n] decimals.  No property below depends on binary
      rounding error.
    - Python [str] is modelled by its UTF-8 encoding, one [ascii] per byte;
      [len] and the slice [s[:n]] count characters, not bytes.
    - A Python [dict] with string keys is an association list in insertion
      order with update in place ([dict_set]); JSON-like payloads are [json].
    - [time.monotonic()] and [datetime.now().isoformat()] are inputs: every
      operation that reads a clock receives the reading as an argument.
    - The [Lock] is not modelled: operations are taken one at a time, which is
      what the mutual exclusion of the source provides. *)

From Stdlib Require Import ZArith QArith Qround List String Ascii Bool Lia.
From Stdlib Require Import DecimalString.
Import ListNotations.

Open Scope string_scope.
Open Scope list_scope.
Open Scope Z_scope.

(* ================================================================== *)
(** ** Python primitives used by the sources *)
(* ================================================================== *)

Module Py.

(** The line feed, the double quote, the em dash (U+2014) and the rightwards
    arrow (U+2192), the last two in UTF-8. *)
Definition nl : string := String (ascii_of_nat 10) EmptyString.
Definition dq : string := String (ascii_of_nat 34) EmptyString.
Definition emdash : string :=
  String (ascii_of_nat 226)
    (String (ascii_of_nat 128) (String (ascii_of_nat 148) EmptyString)).
Definition rarrow : string :=
  String (ascii_of_nat 226)
    (String (ascii_of_nat 134) (String (ascii_of_nat 146) EmptyString)).

(** [sep.join(xs)]. *)
Definition join (sep : string) (xs : list string) : string :=
  String.concat sep xs.

(** [x in s] for strings: [x] occurs in [s] as a contiguous substring. *)
Definition is_infix (x s : string) : Prop :=
  exists pre post, s = (pre ++ x ++ post)%string.

(** [str(i)] for an [int]. *)
Definition str_of_int (i : Z) : string :=
  NilEmpty.string_of_int (Z.to_int i).

(** Truth value of a string: empty is false. *)
Definition str_truthy (s : string) : bool :=
  negb (s =? EmptyString)%string.

(** Truth value of an [Optional[str]]: [None] and the empty string are false. *)
Definition opt_str_truthy (o : option string) : bool :=
  match o with
  | Some s => str_truthy s
  | None => false
  end.

(** Truth value of an [int]: zero is false. *)
Definition int_truthy (i : Z) : bool := negb (i =? 0).

(** Truth value of a [float]: zero is false. *)
Definition float_truthy (x : Q) : bool := negb (Qeq_bool x 0).

(** A byte that continues a multi-byte UTF-8 character (10xxxxxx). *)
Definition is_continuation (c : ascii) : bool :=
  let n := nat_of_ascii c in
  (128 <=? n)%nat && (n <? 192)%nat.

(** [len(s)]: the number of characters, that is, of bytes that start one. *)
Fixpoint str_len (s : string) : Z :=
  match s with
  | EmptyString => 0
  | String c s' => (if is_continuation c then 0 else 1) + str_len s'
  end.

(** [s[:n]]: the first [n] characters, each with its continuation bytes. *)
Fixpoint str_take (n : nat) (s : string) : string :=
  match s with
  | EmptyString => EmptyString
  | String c s' =>
      if is_continuation c then String c (str_take n s')
      else match n with
           | O => EmptyString
           | S n' => String c (str_take n' s')
           end
  end.

(** [a or b] on strings where [a] may be [None]. *)
Definition str_or (a : option string) (b : string) : string :=
  match a with
  | Some s => if str_truthy s then s else b
  | None => b
  end.

(** Round half to even, to an integer. *)
Definition round_half_even (x : Q) : Z :=
  let f := Qfloor x in
  match Qcompare (x - inject_Z f) (1 # 2) with
  | Lt => f
  | Gt => f + 1
  | Eq => if Z.even f then f else f + 1
  end.

(** [round(x, ndigits)]. *)
Definition round (x : Q) (ndigits : nat) : Q :=
  let m := inject_Z (10 ^ Z.of_nat ndigits) in
  Qred (inject_Z (round_half_even (x * m)) / m).

(** [sum(xs)] over floats. *)
Definition sum (xs : list Q) : Q := fold_left Qplus xs 0%Q.

(** [len(xs)] as an [int]. *)
Definition len {A} (xs : list A) : Z := Z.of_nat (List.length xs).

(** Dictionaries with string keys, in insertion order. *)
Definition dict (V : Type) : Type := list (string * V).

Fixpoint dict_get {V} (d : dict V) (k : string) : option V :=
  match d with
  | [] => None
  | (k', v) :: d' => if (k' =? k)%string then Some v else dict_get d' k
  end.

(** [d[k] = v]: overwrite in place, or append a new key. *)
Fixpoint dict_set {V} (d : dict V) (k : string) (v : V) : dict V :=
  match d with
  | [] => [(k, v)]
  | (k', v') :: d' =>
      if (k' =? k)%string then (k', v) :: d' else (k', v') :: dict_set d' k v
  end.

(** [d.update(e)]. *)
Definition dict_update {V} (d e : dict V) : dict V :=
  fold_left (fun acc kv => dict_set acc (fst kv) (snd kv)) e d.

Definition dict_keys {V} (d : dict V) : list string := map fst d.

(** The values held in the telemetry ([Any] in the annotations of the
    source).  [JUnencodable] stands for any value that [json.dump] raises on
    even with [default=str]: a container that contains itself ([ValueError])
    or a dictionary with a key that is neither a string nor a number, a
    boolean or [None] ([TypeError]).  Such values can reach the telemetry
    through the [data] of [record] and the [extra] of [stage_end]. *)
#[warnings="-register-all"]
Inductive json : Type :=
| JNull
| JBool (b : bool)
| JInt (i : Z)
| JFloat (x : Q)
| JStr (s : string)
| JList (l : list json)
| JDict (d : list (string * json))
| JUnencodable.

(** Whether [json.dump(j, f, default=str)] completes. *)
Fixpoint json_encodable (j : json) : bool :=
  match j with
  | JList l => forallb json_encodable l
  | JDict d => forallb (fun kv => json_encodable (snd kv)) d
  | JUnencodable => false
  | _ => true
  end.

Definition json_opt_str (o : option string) : json :=
  match o with
  | Some s => JStr s
  | None => JNull
  end.

(** Keys of a JSON object (empty for any other value). *)
Definition json_keys (j : json) : list string :=
  match j with
  | JDict d => map fst d
  | _ => []
  end.

(** [j[k]] on a JSON object. *)
Definition json_get (j : json) (k : string) : option json :=
  match j with
  | JDict d => dict_get d k
  | _ => None
  end.

(** The object without key [k]. *)
Definition json_remove (j : json) (k : string) : json :=
  match j with
  | JDict d => JDict (filter (fun kv => negb (fst kv =? k)%string) d)
  | _ => j
  end.

End Py.

(* ================================================================== *)
(** ** The host file system, as far as [dump] uses it *)
(* ================================================================== *)

(** A tree of directories and files addressed by absolute paths (the list of
    components below the root).  Components are plain names: [".."] and
    symbolic links are outside the model. *)
Module FS.

Definition abspath : Type := list string.

Inductive node : Type :=
| File (content : Py.json)
| Dir.

(** [pathlib.Path(s)]: anchored at the root or relative to the working
    directory. *)
Record Path : Type := {
  is_absolute : bool;
  parts : list string
}.

Record filesystem : Type := {
  cwd : abspath;
  node_at : abspath -> option node
}.

Definition abspath_eq_dec : forall p q : abspath, {p = q} + {p <> q} :=
  list_eq_dec string_dec.

Definition put (fs : filesystem) (p : abspath) (n : node) : filesystem :=
  {| cwd := cwd fs;
     node_at := fun q => if abspath_eq_dec q p then Some n else node_at fs q |}.

(** [Path.parent]: the path without its last component; the root and the
    empty relative path are their own parents. *)
Definition parent (p : Path) : Path :=
  {| is_absolute := is_absolute p; parts := removelast (parts p) |}.

(** [Path.resolve()]. *)
Definition resolve (fs : filesystem) (p : Path) : abspath :=
  if is_absolute p then parts p else cwd fs ++ parts p.

(** Walk down from [done], creating every missing directory on the way to
    [done ++ todo]; a regular file on the way is an error. *)
Fixpoint mkdir_from (fs : filesystem) (done : abspath) (todo : list string)
    : option filesystem :=
  match node_at fs done with
  | Some (File _) => None
  | here =>
      let fs' := match here with None => put fs done Dir | _ => fs end in
      match todo with
      | [] => Some fs'
      | x :: rest => mkdir_from fs' (done ++ [x]) rest
      end
  end.

(** [Path.mkdir(parents=True, exist_ok=True)]. *)
Definition mkdir_parents (fs : filesystem) (p : Path) : option filesystem :=
  mkdir_from fs [] (resolve fs p).

(** [open(p, "w")] followed by writing one document and closing: the parent
    must be a directory and [p] itself must not be one. *)
Definition write_file (fs : filesystem) (p : abspath) (doc : Py.json)
    : option filesystem :=
  match node_at fs p with
  | Some Dir => None
  | _ =>
      match node_at fs (removelast p) with
      | Some Dir => Some (put fs p (File doc))
      | _ => None
      end
  end.

Definition is_dir (fs : filesystem) (p : abspath) : bool :=
  match node_at fs p with
  | Some Dir => true
  | _ => false
  end.

Definition is_file (fs : filesystem) (p : abspath) : bool :=
  match node_at fs p with
  | Some (File _) => true
  | _ => false
  end.

(** No regular file stands at [dir] or at any of its ancestors, so that the
    directory can be created. *)
Definition creatable (fs : filesystem) (dir : abspath) : bool :=
  forallb (fun k => negb (is_file fs (firstn k dir)))
    (seq 0 (S (List.length dir))).

(** The path has a last component (it is neither the root nor the empty
    relative path). *)
Definition has_name (p : Path) : bool :=
  match parts p with
  | [] => false
  | _ => true
  end.

(** A file system holding the root directory only, and a path below it, for
    use in examples. *)
Definition sample_fs : filesystem :=
  {| cwd := ["srv"; "causeway"];
     node_at := fun q => match q with [] => Some Dir | _ => None end |}.

Definition sample_path : Path :=
  {| is_absolute := false;
     parts := ["diagnostic_output"; "telemetry.json"] |}.

(** [Path(EmptyString)], the path of the working directory itself. *)
Definition empty_path : Path := {| is_absolute := false; parts := [] |}.

End FS.

(* ================================================================== *)
(** ** src/utils/telemetry.py *)
(* ================================================================== *)

Module Telemetry.
Import Py.

(** One reading of the two clocks taken by [record] and [reset]. *)
Record clock : Type := {
  monotonic : Q;        (* time.monotonic() *)
  isoformat : string    (* datetime.now(timezone.utc).isoformat() *)
}.

Record TelemetryEvent : Type := {
  stage : string;
  event : string;
  timestamp : Q;
  wall_clock : string;
  data : dict json
}.

Record LLMCallCounter : Type := {
  total_calls : Z;
  total_prompt_chars : Z;
  total_completion_chars : Z;
  total_prompt_tokens_est : Z;
  total_retries : Z;
  total_errors : Z;
  total_quota_errors : Z;
  total_fallbacks : Z;
  calls_by_model : dict Z;
  latency_samples_ms : list Q
}.

Record PyWhyLLMCounter : Type := {
  total_pairs : Z;
  pairs_a : Z;
  pairs_b : Z;
  pairs_c : Z;
  pairs_normalized : Z;
  pairs_parse_fail : Z;
  pairs_exception : Z;
  raw_outputs : list (dict json);
  per_call_latency_ms : list Q
}.

Record VerificationCounter : Type := {
  total_edges_submitted : Z;
  total_judge_calls : Z;
  total_adversarial_calls : Z;
  grounded_count : Z;
  rejected_count : Z;
  no_evidence_count : Z;
  exhausted_iterations_count : Z;
  duplicate_query_breaks : Z;
  adversarial_rejections : Z;
  rejection_reasons : list (dict json);
  verdict_confidences : list Q
}.

Record EdgeDropoutTracker : Type := {
  pywhyllm_proposed : Z;
  langextract_proposed : Z;
  total_after_dedup : Z;
  after_mechanism_synthesis : Z;
  submitted_to_verification : Z;
  grounded_by_verification : Z;
  rejected_by_verification : Z;
  node_not_found_errors : Z;
  cycle_detected_errors : Z;
  other_add_errors : Z;
  final_edges_in_graph : Z
}.

Record PipelineTelemetry : Type := {
  run_start : Q;
  run_start_wall : string;
  events : list TelemetryEvent;
  stage_starts : dict Q;
  stage_durations : dict Q;
  llm : LLMCallCounter;
  pywhyllm : PyWhyLLMCounter;
  verification : VerificationCounter;
  edge_dropout : EdgeDropoutTracker;
  variable_count_raw : Z;
  variable_count_canonical : Z;
  variable_count_added : Z;
  evidence_cache_size : Z;
  var_id_resolve_misses : list (dict json)
}.

(** Dataclass defaults. *)
Definition LLMCallCounter_new : LLMCallCounter :=
  {| total_calls := 0; total_prompt_chars := 0; total_completion_chars := 0;
     total_prompt_tokens_est := 0; total_retries := 0; total_errors := 0;
     total_quota_errors := 0; total_fallbacks := 0;
     calls_by_model := []; latency_samples_ms := [] |}.

Definition PyWhyLLMCounter_new : PyWhyLLMCounter :=
  {| total_pairs := 0; pairs_a := 0; pairs_b := 0; pairs_c := 0;
     pairs_normalized := 0; pairs_parse_fail := 0; pairs_exception := 0;
     raw_outputs := []; per_call_latency_ms := [] |}.

Definition VerificationCounter_new : VerificationCounter :=
  {| total_edges_submitted := 0; total_judge_calls := 0;
     total_adversarial_calls := 0; grounded_count := 0; rejected_count := 0;
     no_evidence_count := 0; exhausted_iterations_count := 0;
     duplicate_query_breaks := 0; adversarial_rejections := 0;
     rejection_reasons := []; verdict_confidences := [] |}.

Definition EdgeDropoutTracker_new : EdgeDropoutTracker :=
  {| pywhyllm_proposed := 0; langextract_proposed := 0; total_after_dedup := 0;
     after_mechanism_synthesis := 0; submitted_to_verification := 0;
     grounded_by_verification := 0; rejected_by_verification := 0;
     node_not_found_errors := 0; cycle_detected_errors := 0;
     other_add_errors := 0; final_edges_in_graph := 0 |}.

(** Field assignments on the instance ([self.x = ...]). *)
Definition with_events (t : PipelineTelemetry) (v : list TelemetryEvent) :=
  {| run_start := run_start t; run_start_wall := run_start_wall t;
     events := v; stage_starts := stage_starts t;
     stage_durations := stage_durations t; llm := llm t;
     pywhyllm := pywhyllm t; verification := verification t;
     edge_dropout := edge_dropout t;
     variable_count_raw := variable_count_raw t;
     variable_count_canonical := variable_count_canonical t;
     variable_count_added := variable_count_added t;
     evidence_cache_size := evidence_cache_size t;
     var_id_resolve_misses := var_id_resolve_misses t |}.

Definition with_stage_starts (t : PipelineTelemetry) (v : dict Q) :=
  {| run_start := run_start t; run_start_wall := run_start_wall t;
     events := events t; stage_starts := v;
     stage_durations := stage_durations t; llm := llm t;
     pywhyllm := pywhyllm t; verification := verification t;
     edge_dropout := edge_dropout t;
     variable_count_raw := variable_count_raw t;
     variable_count_canonical := variable_count_canonical t;
     variable_count_added := variable_count_added t;
     evidence_cache_size := evidence_cache_size t;
     var_id_resolve_misses := var_id_resolve_misses t |}.

Definition with_stage_durations (t : PipelineTelemetry) (v : dict Q) :=
  {| run_start := run_start t; run_start_wall := run_start_wall t;
     events := events t; stage_starts := stage_starts t;
     stage_durations := v; llm := llm t;
     pywhyllm := pywhyllm t; verification := verification t;
     edge_dropout := edge_dropout t;
     variable_count_raw := variable_count_raw t;
     variable_count_canonical := variable_count_canonical t;
     variable_count_added := variable_count_added t;
     evidence_cache_size := evidence_cache_size t;
     var_id_resolve_misses := var_id_resolve_misses t |}.

Definition with_llm (t : PipelineTelemetry) (v : LLMCallCounter) :=
  {| run_start := run_start t; run_start_wall := run_start_wall t;
     events := events t; stage_starts := stage_starts t;
     stage_durations := stage_durations t; llm := v;
     pywhyllm := pywhyllm t; verification := verification t;
     edge_dropout := edge_dropout t;
     variable_count_raw := variable_count_raw t;
     variable_count_canonical := variable_count_canonical t;
     variable_count_added := variable_count_added t;
     evidence_cache_size := evidence_cache_size t;
     var_id_resolve_misses := var_id_resolve_misses t |}.

Definition with_pywhyllm (t : PipelineTelemetry) (v : PyWhyLLMCounter) :=
  {| run_start := run_start t; run_start_wall := run_start_wall t;
     events := events t; stage_starts := stage_starts t;
     stage_durations := stage_durations t; llm := llm t;
     pywhyllm := v; verification := verification t;
     edge_dropout := edge_dropout t;
     variable_count_raw := variable_count_raw t;
     variable_count_canonical := variable_count_canonical t;
     variable_count_added := variable_count_added t;
     evidence_cache_size := evidence_cache_size t;
     var_id_resolve_misses := var_id_resolve_misses t |}.

Definition with_verification (t : PipelineTelemetry) (v : VerificationCounter) :=
  {| run_start := run_start t; run_start_wall := run_start_wall t;
     events := events t; stage_starts := stage_starts t;
     stage_durations := stage_durations t; llm := llm t;
     pywhyllm := pywhyllm t; verification := v;
     edge_dropout := edge_dropout t;
     variable_count_raw := variable_count_raw t;
     variable_count_canonical := variable_count_canonical t;
     variable_count_added := variable_count_added t;
     evidence_cache_size := evidence_cache_size t;
     var_id_resolve_misses := var_id_resolve_misses t |}.

Definition with_var_id_resolve_misses (t : PipelineTelemetry)
    (v : list (dict json)) :=
  {| run_start := run_start t; run_start_wall := run_start_wall t;
     events := events t; stage_starts := stage_starts t;
     stage_durations := stage_durations t; llm := llm t;
     pywhyllm := pywhyllm t; verification := verification t;
     edge_dropout := edge_dropout t;
     variable_count_raw := variable_count_raw t;
     variable_count_canonical := variable_count_canonical t;
     variable_count_added := variable_count_added t;
     evidence_cache_size := evidence_cache_size t;
     var_id_resolve_misses := v |}.

(** [PipelineTelemetry.reset]: every attribute is assigned afresh; nothing of
    the previous state is read. *)
Definition reset (self : PipelineTelemetry) (c : clock) : PipelineTelemetry :=
  {| run_start := monotonic c;
     run_start_wall := isoformat c;
     events := [];
     stage_starts := [];
     stage_durations := [];
     llm := LLMCallCounter_new;
     pywhyllm := PyWhyLLMCounter_new;
     verification := VerificationCounter_new;
     edge_dropout := EdgeDropoutTracker_new;
     variable_count_raw := 0;
     variable_count_canonical := 0;
     variable_count_added := 0;
     evidence_cache_size := 0;
     var_id_resolve_misses := [] |}.

(** The object as [__init__] finds it: no attribute but the lock is set, so
    the record below is only a placeholder that [reset] overwrites whole. *)
Definition blank : PipelineTelemetry :=
  {| run_start := 0%Q; run_start_wall := EmptyString; events := [];
     stage_starts := []; stage_durations := [];
     llm := LLMCallCounter_new; pywhyllm := PyWhyLLMCounter_new;
     verification := VerificationCounter_new;
     edge_dropout := EdgeDropoutTracker_new;
     variable_count_raw := 0; variable_count_canonical := 0;
     variable_count_added := 0; evidence_cache_size := 0;
     var_id_resolve_misses := [] |}.

(** [PipelineTelemetry.__init__]: create the lock, then [self.reset()]. *)
Definition init (c : clock) : PipelineTelemetry := reset blank c.

(** [PipelineTelemetry.record]. *)
Definition record (self : PipelineTelemetry) (stage event : string)
    (data : dict json) (c : clock) : PipelineTelemetry :=
  let ev := {| stage := stage; event := event; timestamp := monotonic c;
               wall_clock := isoformat c; data := data |} in
  with_events self (events self ++ [ev]).

(** [PipelineTelemetry.stage_start]; [t0] is the reading stored in
    [stage_starts], [c] the later reading taken by [record]. *)
Definition stage_start (self : PipelineTelemetry) (stage : string)
    (t0 : Q) (c : clock) : PipelineTelemetry :=
  let self := with_stage_starts self (dict_set (stage_starts self) stage t0) in
  record self stage "stage_start" [] c.

(** The [elapsed] computed by [stage_end] at monotonic reading [now]. *)
Definition stage_elapsed (self : PipelineTelemetry) (stage : string)
    (now : Q) : Q :=
  match dict_get (stage_starts self) stage with
  | Some t0 => if float_truthy t0 then (now - t0)%Q else 0%Q
  | None => 0%Q
  end.

(** [PipelineTelemetry.stage_end]: the state the instance is left in.  The
    closing log line renders [json.dumps(extra or {}, default=str)]; on an
    [extra] that cannot be encoded the method raises there, after the
    duration and the event have been recorded as below. *)
Definition stage_end (self : PipelineTelemetry) (stage : string)
    (extra : option (dict json)) (now : Q) (c : clock) : PipelineTelemetry :=
  let elapsed := stage_elapsed self stage now in
  let self := with_stage_durations self
                (dict_set (stage_durations self) stage elapsed) in
  let payload := [("elapsed_seconds", JFloat (round elapsed 3))] in
  let payload :=
    match extra with
    | Some e => match e with [] => payload | _ => dict_update payload e end
    | None => payload
    end in
  record self stage "stage_end" payload c.

(** [PipelineTelemetry.record_llm_call]. *)
Definition record_llm_call (self : PipelineTelemetry) (model : string)
    (prompt_chars completion_chars : Z) (latency_ms : Q)
    (prompt_tokens completion_tokens : Z) : PipelineTelemetry :=
  let l := llm self in
  let est := total_prompt_tokens_est l + prompt_chars / 4 in
  let by_model :=
    dict_set (calls_by_model l) model
      (match dict_get (calls_by_model l) model with
       | Some n => n
       | None => 0
       end + 1) in
  let est := if int_truthy prompt_tokens then Z.max est prompt_tokens else est in
  with_llm self
    {| total_calls := total_calls l + 1;
       total_prompt_chars := total_prompt_chars l + prompt_chars;
       total_completion_chars := total_completion_chars l + completion_chars;
       total_prompt_tokens_est := est;
       total_retries := total_retries l;
       total_errors := total_errors l;
       total_quota_errors := total_quota_errors l;
       total_fallbacks := total_fallbacks l;
       calls_by_model := by_model;
       latency_samples_ms := latency_samples_ms l ++ [latency_ms] |}.

(** [PipelineTelemetry.record_llm_retry]. *)
Definition record_llm_retry (self : PipelineTelemetry) (model : string)
    (attempt : Z) (error : string) (c : clock) : PipelineTelemetry :=
  let l := llm self in
  let self := with_llm self
    {| total_calls := total_calls l;
       total_prompt_chars := total_prompt_chars l;
       total_completion_chars := total_completion_chars l;
       total_prompt_tokens_est := total_prompt_tokens_est l;
       total_retries := total_retries l + 1;
       total_errors := total_errors l;
       total_quota_errors := total_quota_errors l;
       total_fallbacks := total_fallbacks l;
       calls_by_model := calls_by_model l;
       latency_samples_ms := latency_samples_ms l |} in
  record self "llm" "retry"
    [("model", JStr model); ("attempt", JInt attempt);
     ("error", JStr (str_take 300 error))] c.

(** [PipelineTelemetry.record_llm_error]. *)
Definition record_llm_error (self : PipelineTelemetry) (model error : string)
    (is_quota : bool) (c : clock) : PipelineTelemetry :=
  let l := llm self in
  let self := with_llm self
    {| total_calls := total_calls l;
       total_prompt_chars := total_prompt_chars l;
       total_completion_chars := total_completion_chars l;
       total_prompt_tokens_est := total_prompt_tokens_est l;
       total_retries := total_retries l;
       total_errors := total_errors l + 1;
       total_quota_errors :=
         if is_quota then total_quota_errors l + 1 else total_quota_errors l;
       total_fallbacks := total_fallbacks l;
       calls_by_model := calls_by_model l;
       latency_samples_ms := latency_samples_ms l |} in
  record self "llm" "error"
    [("model", JStr model); ("error", JStr (str_take 500 error));
     ("is_quota", JBool is_quota)] c.

(** [PipelineTelemetry.record_llm_fallback]. *)
Definition record_llm_fallback (self : PipelineTelemetry) (model : string)
    (c : clock) : PipelineTelemetry :=
  let l := llm self in
  let self := with_llm self
    {| total_calls := total_calls l;
       total_prompt_chars := total_prompt_chars l;
       total_completion_chars := total_completion_chars l;
       total_prompt_tokens_est := total_prompt_tokens_est l;
       total_retries := total_retries l;
       total_errors := total_errors l;
       total_quota_errors := total_quota_errors l;
       total_fallbacks := total_fallbacks l + 1;
       calls_by_model := calls_by_model l;
       latency_samples_ms := latency_samples_ms l |} in
  record self "llm" "native_to_prompt_fallback" [("model", JStr model)] c.

(** The five mutually exclusive answer classes of [record_pywhyllm_pair]. *)
Inductive pair_class : Type :=
| PairException | PairA | PairB | PairC | PairParseFail.

Definition classify_pair (answer : string) (error : option string)
    : pair_class :=
  if opt_str_truthy error then PairException
  else if (answer =? "A")%string then PairA
  else if (answer =? "B")%string then PairB
  else if (answer =? "C")%string then PairC
  else PairParseFail.

Definition bump (hit : bool) (n : Z) : Z := if hit then n + 1 else n.

Definition is_class (a b : pair_class) : bool :=
  match a, b with
  | PairException, PairException | PairA, PairA | PairB, PairB
  | PairC, PairC | PairParseFail, PairParseFail => true
  | _, _ => false
  end.

(** [PipelineTelemetry.record_pywhyllm_pair]. *)
Definition record_pywhyllm_pair (self : PipelineTelemetry)
    (var1 var2 answer raw_description : string) (latency_ms : Q)
    (error : option string) (was_normalized : bool) : PipelineTelemetry :=
  let p := pywhyllm self in
  let cls := classify_pair answer error in
  let raw :=
    if (List.length (raw_outputs p) <? 200)%nat then
      raw_outputs p ++
        [[("var1", JStr var1);
          ("var2", JStr var2);
          ("answer_parsed", JStr answer);
          ("raw_description",
             JStr (if str_truthy raw_description
                   then str_take 500 raw_description else EmptyString));
          ("latency_ms", JFloat (round latency_ms 1));
          ("error", json_opt_str error)]]
    else raw_outputs p in
  with_pywhyllm self
    {| total_pairs := total_pairs p + 1;
       pairs_a := bump (is_class cls PairA) (pairs_a p);
       pairs_b := bump (is_class cls PairB) (pairs_b p);
       pairs_c := bump (is_class cls PairC) (pairs_c p);
       pairs_normalized := bump was_normalized (pairs_normalized p);
       pairs_parse_fail := bump (is_class cls PairParseFail) (pairs_parse_fail p);
       pairs_exception := bump (is_class cls PairException) (pairs_exception p);
       raw_outputs := raw;
       per_call_latency_ms := per_call_latency_ms p ++ [latency_ms] |}.

(** [PipelineTelemetry.record_verification_verdict]. *)
Definition record_verification_verdict (self : PipelineTelemetry)
    (from_var to_var : string) (iteration : Z) (is_grounded : bool)
    (confidence : Q) (support_type : string) (has_refinement : bool)
    (evidence_chunk_count evidence_block_chars : Z) (c : clock)
    : PipelineTelemetry :=
  let v := verification self in
  let self := with_verification self
    {| total_edges_submitted := total_edges_submitted v;
       total_judge_calls := total_judge_calls v + 1;
       total_adversarial_calls := total_adversarial_calls v;
       grounded_count := grounded_count v;
       rejected_count := rejected_count v;
       no_evidence_count := no_evidence_count v;
       exhausted_iterations_count := exhausted_iterations_count v;
       duplicate_query_breaks := duplicate_query_breaks v;
       adversarial_rejections := adversarial_rejections v;
       rejection_reasons := rejection_reasons v;
       verdict_confidences := verdict_confidences v ++ [confidence] |} in
  record self "verification" "judge_verdict"
    [("edge", JStr (from_var ++ "->" ++ to_var)%string);
     ("iteration", JInt iteration);
     ("is_grounded", JBool is_grounded);
     ("confidence", JFloat confidence);
     ("support_type", JStr support_type);
     ("has_refinement", JBool has_refinement);
     ("evidence_chunk_count", JInt evidence_chunk_count);
     ("evidence_block_chars", JInt evidence_block_chars)] c.

(** [PipelineTelemetry.record_verification_final]. *)
Definition record_verification_final (self : PipelineTelemetry)
    (from_var to_var : string) (grounded : bool)
    (rejection_reason : option string) (iterations_used : Z)
    : PipelineTelemetry :=
  let v := verification self in
  with_verification self
    {| total_edges_submitted := total_edges_submitted v;
       total_judge_calls := total_judge_calls v;
       total_adversarial_calls := total_adversarial_calls v;
       grounded_count :=
         if grounded then grounded_count v + 1 else grounded_count v;
       rejected_count :=
         if grounded then rejected_count v else rejected_count v + 1;
       no_evidence_count := no_evidence_count v;
       exhausted_iterations_count := exhausted_iterations_count v;
       duplicate_query_breaks := duplicate_query_breaks v;
       adversarial_rejections := adversarial_rejections v;
       rejection_reasons :=
         if grounded then rejection_reasons v
         else rejection_reasons v ++
                [[("edge", JStr (from_var ++ "->" ++ to_var)%string);
                  ("reason", JStr (str_or rejection_reason "unknown"));
                  ("iterations", JInt iterations_used)]];
       verdict_confidences := verdict_confidences v |}.

(** [PipelineTelemetry.record_var_id_resolve_miss]. *)
Definition record_var_id_resolve_miss (self : PipelineTelemetry)
    (raw_id resolved_id match_type : string) : PipelineTelemetry :=
  with_var_id_resolve_misses self
    (var_id_resolve_misses self ++
       [[("raw_id", JStr raw_id);
         ("resolved_id", JStr resolved_id);
         ("match_type", JStr match_type)]]).

(** [dataclasses.asdict(self.edge_dropout)]. *)
Definition asdict_edge_dropout (e : EdgeDropoutTracker) : json :=
  JDict
    [("pywhyllm_proposed", JInt (pywhyllm_proposed e));
     ("langextract_proposed", JInt (langextract_proposed e));
     ("total_after_dedup", JInt (total_after_dedup e));
     ("after_mechanism_synthesis", JInt (after_mechanism_synthesis e));
     ("submitted_to_verification", JInt (submitted_to_verification e));
     ("grounded_by_verification", JInt (grounded_by_verification e));
     ("rejected_by_verification", JInt (rejected_by_verification e));
     ("node_not_found_errors", JInt (node_not_found_errors e));
     ("cycle_detected_errors", JInt (cycle_detected_errors e));
     ("other_add_errors", JInt (other_add_errors e));
     ("final_edges_in_graph", JInt (final_edges_in_graph e))].

(** [sum(xs) / max(len(xs), 1)]. *)
Definition average (xs : list Q) : Q :=
  (sum xs / inject_Z (Z.max (len xs) 1))%Q.

(** [PipelineTelemetry.summary]; [now] is its reading of [time.monotonic()].
    The method assigns to no attribute of [self]: it is a function of the
    state and the clock. *)
Definition summary (self : PipelineTelemetry) (now : Q) : json :=
  let total_run_time := (now - run_start self)%Q in
  let avg_pywhyllm := average (per_call_latency_ms (pywhyllm self)) in
  let avg_llm := average (latency_samples_ms (llm self)) in
  JDict
    [("run_start_utc", JStr (run_start_wall self));
     ("total_run_seconds", JFloat (round total_run_time 2));
     ("stage_durations_seconds",
        JDict (map (fun kv => (fst kv, JFloat (round (snd kv) 2)))
                 (stage_durations self)));
     ("variables",
        JDict
          [("raw_discovered", JInt (variable_count_raw self));
           ("after_canonicalization", JInt (variable_count_canonical self));
           ("added_to_engine", JInt (variable_count_added self))]);
     ("llm_calls",
        JDict
          [("total", JInt (total_calls (llm self)));
           ("by_model",
              JDict (map (fun kv => (fst kv, JInt (snd kv)))
                       (calls_by_model (llm self))));
           ("total_prompt_chars", JInt (total_prompt_chars (llm self)));
           ("total_completion_chars", JInt (total_completion_chars (llm self)));
           ("est_total_prompt_tokens", JInt (total_prompt_tokens_est (llm self)));
           ("avg_latency_ms", JFloat (round avg_llm 1));
           ("retries", JInt (total_retries (llm self)));
           ("errors", JInt (total_errors (llm self)));
           ("quota_errors", JInt (total_quota_errors (llm self)));
           ("fallbacks_to_prompt_injection", JInt (total_fallbacks (llm self)))]);
     ("pywhyllm_pairwise",
        JDict
          [("total_pairs", JInt (total_pairs (pywhyllm self)));
           ("theoretical_pairs_formula", JStr "C(n,2) = n*(n-1)/2");
           ("edges_found_A", JInt (pairs_a (pywhyllm self)));
           ("edges_found_B", JInt (pairs_b (pywhyllm self)));
           ("no_relationship_C", JInt (pairs_c (pywhyllm self)));
           ("answers_recovered_via_normalization",
              JInt (pairs_normalized (pywhyllm self)));
           ("parse_failures", JInt (pairs_parse_fail (pywhyllm self)));
           ("exceptions", JInt (pairs_exception (pywhyllm self)));
           ("avg_latency_ms", JFloat (round avg_pywhyllm 1))]);
     ("edge_dropout", asdict_edge_dropout (edge_dropout self));
     ("verification",
        let v := verification self in
        JDict
          [("edges_submitted", JInt (total_edges_submitted v));
           ("judge_calls", JInt (total_judge_calls v));
           ("adversarial_calls", JInt (total_adversarial_calls v));
           ("grounded", JInt (grounded_count v));
           ("rejected", JInt (rejected_count v));
           ("no_evidence_retrievals", JInt (no_evidence_count v));
           ("exhausted_iterations", JInt (exhausted_iterations_count v));
           ("duplicate_query_breaks", JInt (duplicate_query_breaks v));
           ("adversarial_rejections", JInt (adversarial_rejections v));
           ("avg_verdict_confidence",
              JFloat (round (average (verdict_confidences v)) 3));
           ("rejection_reasons",
              JList (map JDict (firstn 50 (rejection_reasons v))))]);
     ("var_id_resolve_misses",
        JList (map JDict (firstn 30 (var_id_resolve_misses self))));
     ("evidence_cache_size", JInt (evidence_cache_size self))].

(** One entry of the ["events"] list written by [dump]. *)
Definition event_json (self : PipelineTelemetry) (ev : TelemetryEvent) : json :=
  JDict
    [("stage", JStr (stage ev));
     ("event", JStr (event ev));
     ("wall_clock", JStr (wall_clock ev));
     ("elapsed_since_start",
        JFloat (round (timestamp ev - run_start self)%Q 3));
     ("data", JDict (data ev))].

(** The document assembled by [dump]. *)
Definition dump_payload (self : PipelineTelemetry) (now : Q) : json :=
  JDict
    [("summary", summary self now);
     ("pywhyllm_raw_outputs", JList (map JDict (raw_outputs (pywhyllm self))));
     ("events", JList (map (event_json self) (events self)))].

(** [PipelineTelemetry.dump]: [None] stands for an exception, the [OSError]
    raised by [mkdir] or [open], or the [TypeError] / [ValueError] raised by
    [json.dump] on a payload it cannot encode (the target, already opened for
    writing, is then left truncated or partly written); otherwise the new
    file system and the returned path. *)
Definition dump (self : PipelineTelemetry) (path : FS.Path) (now : Q)
    (fs : FS.filesystem) : option (FS.filesystem * FS.abspath) :=
  let out := path in
  match FS.mkdir_parents fs (FS.parent out) with
  | None => None
  | Some fs =>
      let payload := dump_payload self now in
      let abs_path := FS.resolve fs out in
      match FS.write_file fs abs_path payload with
      | None => None
      | Some fs =>
          if json_encodable payload then Some (fs, abs_path) else None
      end
  end.

(** [get_telemetry] on the module-level [_instance]: returns the instance and
    the new value of the global. *)
Definition get_telemetry (instance : option PipelineTelemetry) (c : clock)
    : PipelineTelemetry * option PipelineTelemetry :=
  match instance with
  | Some t => (t, Some t)
  | None => let t := init c in (t, Some t)
  end.

(** *** Sequences of calls on one instance *)

Inductive call : Type :=
| Reset (c : clock)
| StageStart (stage : string) (t0 : Q) (c : clock)
| StageEnd (stage : string) (extra : option (dict json)) (now : Q) (c : clock)
| Record_ (stage event : string) (data : dict json) (c : clock)
| RecordLlmCall (model : string) (prompt_chars completion_chars : Z)
    (latency_ms : Q) (prompt_tokens completion_tokens : Z)
| RecordLlmRetry (model : string) (attempt : Z) (error : string) (c : clock)
| RecordLlmError (model error : string) (is_quota : bool) (c : clock)
| RecordLlmFallback (model : string) (c : clock)
| RecordPywhyllmPair (var1 var2 answer raw_description : string)
    (latency_ms : Q) (error : option string) (was_normalized : bool)
| RecordVerificationVerdict (from_var to_var : string) (iteration : Z)
    (is_grounded : bool) (confidence : Q) (support_type : string)
    (has_refinement : bool) (evidence_chunk_count evidence_block_chars : Z)
    (c : clock)
| RecordVerificationFinal (from_var to_var : string) (grounded : bool)
    (rejection_reason : option string) (iterations_used : Z)
| RecordVarIdResolveMiss (raw_id resolved_id match_type : string).

Definition step (self : PipelineTelemetry) (k : call) : PipelineTelemetry :=
  match k with
  | Reset c => reset self c
  | StageStart s t0 c => stage_start self s t0 c
  | StageEnd s extra now c => stage_end self s extra now c
  | Record_ s e d c => record self s e d c
  | RecordLlmCall m pc cc lat pt ct => record_llm_call self m pc cc lat pt ct
  | RecordLlmRetry m a e c => record_llm_retry self m a e c
  | RecordLlmError m e q c => record_llm_error self m e q c
  | RecordLlmFallback m c => record_llm_fallback self m c
  | RecordPywhyllmPair v1 v2 a r lat e n =>
      record_pywhyllm_pair self v1 v2 a r lat e n
  | RecordVerificationVerdict f t i g cf st hr n b c =>
      record_verification_verdict self f t i g cf st hr n b c
  | RecordVerificationFinal f t g r i => record_verification_final self f t g r i
  | RecordVarIdResolveMiss r s m => record_var_id_resolve_miss self r s m
  end.

(** The state after the calls [ks], made in order on [self]. *)
Definition run (self : PipelineTelemetry) (ks : list call) : PipelineTelemetry :=
  fold_left step ks self.

(** *** Vocabulary for statements about call histories *)

(** Number of calls satisfying [p] made since the last [reset] (or since
    construction). *)
Definition tally (p : call -> bool) (n : Z) (k : call) : Z :=
  match k with
  | Reset _ => 0
  | _ => if p k then n + 1 else n
  end.

Definition calls_since_reset (p : call -> bool) (ks : list call) : Z :=
  fold_left (tally p) ks 0.

Definition is_reset (k : call) : bool :=
  match k with Reset _ => true | _ => false end.

Definition is_record_llm_call (k : call) : bool :=
  match k with RecordLlmCall _ _ _ _ _ _ => true | _ => false end.

Definition is_record_verification_final (k : call) : bool :=
  match k with RecordVerificationFinal _ _ _ _ _ => true | _ => false end.

(** Events of the log carrying the tag [(st, ev)]. *)
Definition is_event (st ev : string) (e : TelemetryEvent) : bool :=
  (stage e =? st)%string && (event e =? ev)%string.

Definition count_events (st ev : string) (t : PipelineTelemetry) : Z :=
  len (filter (is_event st ev) (events t)).

(** The tags under which the typed recorders log their derived events. *)
Definition derived_tag (st ev : string) : bool :=
  ((st =? "llm")%string &&
     ((ev =? "retry")%string || (ev =? "error")%string
      || (ev =? "native_to_prompt_fallback")%string))
  || ((st =? "verification")%string && (ev =? "judge_verdict")%string).

(** A call that does not forge a derived event through the generic
    [record]. *)
Definition unforged (k : call) : bool :=
  match k with
  | Record_ st ev _ _ => negb (derived_tag st ev)
  | _ => true
  end.

(** The claim that counters and events never diverge, read on
    [llm.total_calls]: some class of events counts the LLM calls. *)
Definition llm_calls_are_logged (is_llm_call_event : TelemetryEvent -> bool)
    : Prop :=
  forall c ks,
    forallb is_record_llm_call ks = true ->
    total_calls (llm (run (init c) ks))
    = len (filter is_llm_call_event (events (run (init c) ks))).

(** A [record_llm_call] that leaves [prompt_tokens] at its default. *)
Definition default_prompt_tokens (k : call) : bool :=
  match k with
  | RecordLlmCall _ _ _ _ prompt_tokens _ => prompt_tokens =? 0
  | _ => false
  end.

(** Sum over the [record_llm_call]s of [prompt_chars // 4]. *)
Fixpoint sum_prompt_chars_div4 (ks : list call) : Z :=
  match ks with
  | [] => 0
  | RecordLlmCall _ prompt_chars _ _ _ _ :: rest =>
      prompt_chars / 4 + sum_prompt_chars_div4 rest
  | _ :: rest => sum_prompt_chars_div4 rest
  end.

(** Whether [stage_start stage] was called since the last [reset]. *)
Definition started (stage : string) (ks : list call) : bool :=
  fold_left
    (fun b k =>
       match k with
       | Reset _ => false
       | StageStart s _ _ => b || (s =? stage)%string
       | _ => b
       end) ks false.

(** *** What [json.dump] can encode *)

(** Every event of the log carries data that [json.dump] can encode. *)
Definition data_encodable (t : PipelineTelemetry) : bool :=
  forallb (fun ev => json_encodable (JDict (data ev))) (events t).

(** The entries kept by the typed recorders can be encoded. *)
Definition stored_encodable (t : PipelineTelemetry) : bool :=
  forallb (fun d => json_encodable (JDict d)) (raw_outputs (pywhyllm t))
  && forallb (fun d => json_encodable (JDict d))
       (rejection_reasons (verification t))
  && forallb (fun d => json_encodable (JDict d)) (var_id_resolve_misses t).

(** The claim that [dump] writes its document for every path argument. *)
Definition dump_writes_for_every_path : Prop :=
  forall t path now fs,
    exists fs' result, dump t path now fs = Some (fs', result).

(** The claim that a call passing [prompt_tokens] replaces the estimate by
    the maximum of the estimate it found and [prompt_tokens], adding
    nothing. *)
Definition prompt_tokens_replace_estimate : Prop :=
  forall t model prompt_chars completion_chars latency_ms prompt_tokens
         completion_tokens,
    0 < prompt_tokens ->
    total_prompt_tokens_est
      (llm (record_llm_call t model prompt_chars completion_chars latency_ms
              prompt_tokens completion_tokens))
    = Z.max (total_prompt_tokens_est (llm t)) prompt_tokens.

(** *** Invariants of the state *)

(** The pairwise classes partition the pairs. *)
Definition pairs_partitioned (t : PipelineTelemetry) : Prop :=
  let p := pywhyllm t in
  total_pairs p
  = pairs_a p + pairs_b p + pairs_c p + pairs_parse_fail p + pairs_exception p.

(** Final verdicts recorded so far. *)
Definition verdicts (t : PipelineTelemetry) : Z :=
  grounded_count (verification t) + rejected_count (verification t).

(** The running prompt-token estimate. *)
Definition est (t : PipelineTelemetry) : Z := total_prompt_tokens_est (llm t).

(** The derived events account for their counters. *)
Definition logged (t : PipelineTelemetry) : Prop :=
  total_retries (llm t) = count_events "llm" "retry" t /\
  total_errors (llm t) = count_events "llm" "error" t /\
  total_fallbacks (llm t) = count_events "llm" "native_to_prompt_fallback" t /\
  total_judge_calls (verification t)
  = count_events "verification" "judge_verdict" t.

(** The retained raw pairwise outputs are capped. *)
Definition raw_capped (t : PipelineTelemetry) : Prop :=
  (List.length (raw_outputs (pywhyllm t)) <= 200)%nat.

(** A clock reading and a short history, for use in examples. *)
Definition sample_clock : clock :=
  {| monotonic := 0%Q; isoformat := "2024-01-01T00:00:00+00:00" |}.

Definition sample_calls : list call :=
  [StageStart "dag_drafting" (1 # 2)%Q sample_clock;
   RecordLlmCall "gemini-2.5-flash" 1000 500 250%Q 0 0;
   RecordLlmRetry "gemini-2.5-flash" 1 "503" sample_clock;
   RecordPywhyllmPair "x" "y" "A" "x causes y" 500%Q None false;
   Record_ "dag_drafting" "pywhyllm_pair_result" [] sample_clock;
   RecordVerificationVerdict "x" "y" 1 true (8 # 10)%Q "direct_causal" false
     3 1500 sample_clock;
   RecordVerificationFinal "x" "y" true None 1;
   StageEnd "dag_drafting" None 2%Q sample_clock].

(** The singleton right after [tel.reset()], as the unit tests start. *)
Definition fresh : PipelineTelemetry := reset (init sample_clock) sample_clock.

(** Two states that differ at most in the captured start timestamps. *)
Definition same_but_start (a b : PipelineTelemetry) : Prop :=
  events a = events b /\
  stage_starts a = stage_starts b /\
  stage_durations a = stage_durations b /\
  llm a = llm b /\
  pywhyllm a = pywhyllm b /\
  verification a = verification b /\
  edge_dropout a = edge_dropout b /\
  variable_count_raw a = variable_count_raw b /\
  variable_count_canonical a = variable_count_canonical b /\
  variable_count_added a = variable_count_added b /\
  evidence_cache_size a = evidence_cache_size b /\
  var_id_resolve_misses a = var_id_resolve_misses b.

End Telemetry.

(* ================================================================== *)
(** ** src/verification/judge.py *)
(* ================================================================== *)

Module Judge.
Import Py.

(** Modelled from the spec: the evidence types of [src.models.evidence], which
    is not among the sources.  An [EvidenceBundle] carries [content],
    [content_hash], a [source] with document id and document title, and a
    [location] with page number and section name; title, page and section may
    be absent. *)
Record EvidenceSource : Type := {
  doc_id : string;
  doc_title : option string
}.

Record EvidenceLocation : Type := {
  page_number : option Z;
  section_name : option string
}.

Record EvidenceBundle : Type := {
  content : string;
  content_hash : string;
  source : EvidenceSource;
  location : EvidenceLocation
}.

Inductive SupportType : Type :=
| DIRECT_CAUSAL
| CORRELATION_ONLY
| IRRELEVANT.

Record VerificationVerdict : Type := {
  is_grounded : bool;
  support_type : SupportType;
  supporting_quote : option string;
  rejection_reason : option string;
  confidence : Q;
  suggested_refinement_query : option string
}.

Record AdversarialVerdict : Type := {
  still_grounded : bool;
  alternative_explanations : list string;
  assumptions_required : list string;
  conditions : list string;
  adv_confidence : Q
}.

Section Templates.
Local Open Scope string_scope.

Definition _GROUNDING_SYSTEM : string :=
  "You are a causal-inference verifier." ++ nl
  ++ "Your task is to determine whether provided evidence TEXT supports" ++ nl
  ++ "a proposed causal relationship." ++ nl
  ++ nl
  ++ "Rules:" ++ nl
  ++ "- Accept DIRECT causal evidence (A causes B, A leads to B, A" ++ nl
  ++ "  drives B, A results in B) " ++ emdash ++ " the evidence must explicitly mention" ++ nl
  ++ "  or clearly imply a causal mechanism." ++ nl
  ++ "- Accept well-established domain knowledge stated in business" ++ nl
  ++ "  plans, strategy documents, or industry analyses (e.g. " ++ dq ++ "marketing" ++ nl
  ++ "  increases customer acquisition" ++ dq ++ " is a widely accepted causal claim" ++ nl
  ++ "  even without a controlled experiment)." ++ nl
  ++ "- Accept evidence describing plans, strategies, or projections that" ++ nl
  ++ "  express domain-expert causal beliefs " ++ emdash ++ " these are valid for initial" ++ nl
  ++ "  model construction even if they lack experimental proof." ++ nl
  ++ "- If the text only shows two variables co-occurring without ANY" ++ nl
  ++ "  implied mechanism or plausible domain-logic connection, classify" ++ nl
  ++ "  as " ++ dq ++ "correlation_only" ++ dq ++ " and set is_grounded=false." ++ nl
  ++ "- If the text is about unrelated topics, classify as " ++ dq ++ "irrelevant" ++ dq ++ nl
  ++ "  and set is_grounded=false." ++ nl
  ++ "- When is_grounded=true, extract the EXACT verbatim quote (no" ++ nl
  ++ "  paraphrasing) as supporting_quote." ++ nl
  ++ "- When is_grounded=false and you believe better evidence might exist" ++ nl
  ++ "  in the document corpus, suggest a refined search query in" ++ nl
  ++ "  suggested_refinement_query.  If you do not believe better evidence" ++ nl
  ++ "  exists, leave it null." ++ nl
  ++ "- Be fair and constructive: for initial graph construction, your" ++ nl
  ++ "  primary goal is to identify genuine causal relationships even" ++ nl
  ++ "  when evidence is indirect.  Accept claims when the evidence" ++ nl
  ++ "  plausibly supports a causal link " ++ emdash ++ " err on the side of inclusion" ++ nl
  ++ "  with an appropriately calibrated confidence score rather than" ++ nl
  ++ "  rejecting borderline cases outright.".

Definition _ADVERSARIAL_SYSTEM : string :=
  "You are a devil's advocate reviewer for causal claims." ++ nl
  ++ "Assume the proposed relationship might be spurious and look for" ++ nl
  ++ "reasons why the evidence might be misleading." ++ nl
  ++ nl
  ++ "Consider:" ++ nl
  ++ "- Confounding variables that could explain the association" ++ nl
  ++ "- Reverse causation (B causes A instead)" ++ nl
  ++ "- Selection bias in the evidence" ++ nl
  ++ "- Measurement issues" ++ nl
  ++ "- Temporal ordering problems" ++ nl
  ++ nl
  ++ "IMPORTANT NUANCE " ++ emdash ++ " Evidence types have different standards:" ++ nl
  ++ "- **Academic / empirical studies**: require rigorous causal evidence." ++ nl
  ++ "- **Business plans, projections, strategy documents**: these express" ++ nl
  ++ "  domain-expert causal beliefs grounded in industry knowledge.  A" ++ nl
  ++ "  business plan stating " ++ dq ++ "marketing drives customer acquisition" ++ dq ++ " is a" ++ nl
  ++ "  valid causal claim based on established business logic, even if it" ++ nl
  ++ "  is forward-looking.  Do NOT reject claims merely because they come" ++ nl
  ++ "  from a planning or strategy document." ++ nl
  ++ "- **Mission statements and aspirational text**: these are weaker but" ++ nl
  ++ "  still signal believed causal relationships." ++ nl
  ++ nl
  ++ "Be thorough but fair " ++ emdash ++ " if after scrutiny the claim genuinely holds" ++ nl
  ++ "as a reasonable causal belief supported by the evidence context, set" ++ nl
  ++ "still_grounded=true.".

(** The text of [_GROUNDING_TEMPLATE] before the [{evidence_block}] field,
    with its other fields filled in. *)
Definition grounding_head (from_var to_var mechanism : string) : string :=
  "## Proposed Causal Edge" ++ nl
  ++ "- **Cause variable:** " ++ from_var ++ nl
  ++ "- **Effect variable:** " ++ to_var ++ nl
  ++ "- **Proposed mechanism:** " ++ mechanism ++ nl
  ++ nl
  ++ "## Retrieved Evidence Chunks" ++ nl.

(** The text of [_GROUNDING_TEMPLATE] after the [{evidence_block}] field. *)
Definition grounding_tail (from_var to_var : string) : string :=
  nl
  ++ nl
  ++ "## Task" ++ nl
  ++ "Does the evidence above explicitly support the claim that" ++ nl
  ++ "**" ++ from_var ++ "** causes **" ++ to_var
  ++ "** through the mechanism described?" ++ nl
  ++ "Evaluate carefully and respond with a structured verdict.".

(** [_GROUNDING_TEMPLATE.format(from_var=..., to_var=..., mechanism=...,
    evidence_block=...)]. *)
Definition _GROUNDING_TEMPLATE_format
    (from_var to_var mechanism evidence_block : string) : string :=
  grounding_head from_var to_var mechanism
  ++ evidence_block
  ++ grounding_tail from_var to_var.

(** [_ADVERSARIAL_TEMPLATE.format(...)]. *)
Definition _ADVERSARIAL_TEMPLATE_format
    (from_var to_var mechanism supporting_quote : string) : string :=
  "## Proposed Causal Edge" ++ nl
  ++ "- **Cause variable:** " ++ from_var ++ nl
  ++ "- **Effect variable:** " ++ to_var ++ nl
  ++ "- **Proposed mechanism:** " ++ mechanism ++ nl
  ++ "- **Supporting quote:** " ++ supporting_quote ++ nl
  ++ nl
  ++ "## Task" ++ nl
  ++ "Assume this causal relationship is spurious.  What alternative" ++ nl
  ++ "explanations could account for the observed evidence?  What" ++ nl
  ++ "assumptions must hold for the causal claim to be valid?".

(** The [source] shown for a chunk: [doc_title or doc_id]. *)
Definition chunk_source (chunk : EvidenceBundle) : string :=
  str_or (doc_title (source chunk)) (doc_id (source chunk)).

(** The [loc_parts] collected for a chunk. *)
Definition chunk_loc_parts (chunk : EvidenceBundle) : list string :=
  ((match page_number (location chunk) with
    | Some n => if int_truthy n then [("p." ++ str_of_int n)%string] else []
    | None => []
    end)
   ++
   (match section_name (location chunk) with
    | Some n => if str_truthy n then [n] else []
    | None => []
    end))%list.

(** The [loc] shown for a chunk. *)
Definition chunk_loc (chunk : EvidenceBundle) : string :=
  match chunk_loc_parts chunk with
  | [] => "unknown location"
  | loc_parts => join ", " loc_parts
  end.

(** The entry appended to [parts] for chunk number [i]. *)
Definition format_chunk (i : Z) (chunk : EvidenceBundle) : string :=
  "### Chunk " ++ str_of_int i ++ " [" ++ chunk_source chunk
  ++ " " ++ emdash ++ " " ++ chunk_loc chunk ++ "]" ++ nl
  ++ content chunk ++ nl.

End Templates.

(** The loop [for i, chunk in enumerate(chunks, i)]. *)
Fixpoint format_parts (i : Z) (chunks : list EvidenceBundle) : list string :=
  match chunks with
  | [] => []
  | chunk :: rest => format_chunk i chunk :: format_parts (i + 1) rest
  end.

(** [VerificationJudge._format_evidence]. *)
Definition _format_evidence (chunks : list EvidenceBundle) : string :=
  match chunks with
  | [] => "(no evidence retrieved)"
  | _ => join nl (format_parts 1 chunks)
  end.

(** One call [_logger.info(fmt, *args)]: the format string and its
    arguments, as handed to the logger. *)
Record log_record : Type := {
  fmt : string;
  args : list json
}.

(** The process state a judge call can touch: the module-level telemetry
    [_instance] ([None] until [get_telemetry] is first called) and the
    records handed to the module logger. *)
Record world : Type := {
  telemetry : option Telemetry.PipelineTelemetry;
  log : list log_record
}.

(** [_logger.info(fmt, *args)]. *)
Definition logger_info (w : world) (fmt : string) (args : list json) : world :=
  {| telemetry := telemetry w;
     log := log w ++ [{| fmt := fmt; args := args |}] |}.

(** Outcome of an oracle call: the structured verdict, or the exception
    raised by the client. *)
Inductive outcome (V : Type) : Type :=
| Returned (v : V)
| Raised (error : string).
Arguments Returned {V} v.
Arguments Raised {V} error.

(** [LLMClient.generate_structured_native(prompt, output_schema,
    system_prompt, model_override)] of [src.agent.llm_client], which is not
    among the sources: taken as a parameter, one function per output schema.
    The client may itself use the telemetry singleton and the log. *)
Definition oracle (V : Type) : Type :=
  string (* prompt *) -> string (* system_prompt *) ->
  string (* model_override *) -> world -> outcome V * world.

Record VerificationJudge : Type := {
  llm_grounding : oracle VerificationVerdict;
  llm_adversarial : oracle AdversarialVerdict;
  judge_model : string
}.

(** [SupportType.value]. *)
Definition SupportType_value (s : SupportType) : string :=
  match s with
  | DIRECT_CAUSAL => "direct_causal"
  | CORRELATION_ONLY => "correlation_only"
  | IRRELEVANT => "irrelevant"
  end.

(** The prompt built by [evaluate]. *)
Definition evaluate_prompt (from_var to_var mechanism : string)
    (evidence_chunks : list EvidenceBundle) : string :=
  let evidence_block := _format_evidence evidence_chunks in
  _GROUNDING_TEMPLATE_format from_var to_var mechanism evidence_block.

(** The log line written by [evaluate] before the oracle call. *)
Definition evaluate_log (w : world) (from_var to_var : string)
    (evidence_chunks : list EvidenceBundle) (prompt : string) : world :=
  let evidence_block := _format_evidence evidence_chunks in
  let full_prompt_chars := str_len prompt + str_len _GROUNDING_SYSTEM in
  logger_info w
    ("[TELEMETRY] Judge evaluate %s" ++ rarrow
     ++ "%s: prompt_chars=%d est_tokens=%d "
     ++ "evidence_chunks=%d evidence_block_chars=%d")%string
    [JStr from_var; JStr to_var; JInt full_prompt_chars;
     JInt (full_prompt_chars / 4);
     JInt (len evidence_chunks); JInt (str_len evidence_block)].

(** The log line written by [evaluate] once the verdict is in. *)
Definition verdict_log (w : world) (from_var to_var : string)
    (verdict : VerificationVerdict) (_jt0 _jt1 : Q) : world :=
  logger_info w
    ("[TELEMETRY] Judge verdict for %s" ++ rarrow
     ++ "%s: grounded=%s  type=%s  confidence=%.2f  "
     ++ "latency=%.1fs  rejection_reason=%r  refinement=%r")%string
    [JStr from_var; JStr to_var; JBool (is_grounded verdict);
     JStr (SupportType_value (support_type verdict));
     JFloat (confidence verdict);
     JFloat (_jt1 - _jt0)%Q;
     json_opt_str (rejection_reason verdict);
     JStr (str_take 80
             (str_or (suggested_refinement_query verdict) EmptyString))].

(** [VerificationJudge.evaluate]; [_jt0] and [_jt1] are its two readings of
    [time.monotonic()].  No telemetry method is called: the method writes two
    log lines around the oracle call, and an exception of the oracle
    propagates. *)
Definition evaluate (self : VerificationJudge)
    (from_var to_var mechanism : string)
    (evidence_chunks : list EvidenceBundle) (_jt0 _jt1 : Q) (w : world)
    : outcome VerificationVerdict * world :=
  let prompt := evaluate_prompt from_var to_var mechanism evidence_chunks in
  let w := evaluate_log w from_var to_var evidence_chunks prompt in
  match llm_grounding self prompt _GROUNDING_SYSTEM (judge_model self) w with
  | (Returned verdict, w) =>
      (Returned verdict, verdict_log w from_var to_var verdict _jt0 _jt1)
  | (Raised error, w) => (Raised error, w)
  end.

(** [_tel.verification.total_adversarial_calls += 1]. *)
Definition count_adversarial_call (t : Telemetry.PipelineTelemetry)
    : Telemetry.PipelineTelemetry :=
  let v := Telemetry.verification t in
  Telemetry.with_verification t
    {| Telemetry.total_edges_submitted := Telemetry.total_edges_submitted v;
       Telemetry.total_judge_calls := Telemetry.total_judge_calls v;
       Telemetry.total_adversarial_calls :=
         Telemetry.total_adversarial_calls v + 1;
       Telemetry.grounded_count := Telemetry.grounded_count v;
       Telemetry.rejected_count := Telemetry.rejected_count v;
       Telemetry.no_evidence_count := Telemetry.no_evidence_count v;
       Telemetry.exhausted_iterations_count :=
         Telemetry.exhausted_iterations_count v;
       Telemetry.duplicate_query_breaks := Telemetry.duplicate_query_breaks v;
       Telemetry.adversarial_rejections := Telemetry.adversarial_rejections v;
       Telemetry.rejection_reasons := Telemetry.rejection_reasons v;
       Telemetry.verdict_confidences := Telemetry.verdict_confidences v |}.

(** The world after the telemetry lines of [evaluate_adversarial]:
    [_tel = _get_telemetry() if _get_telemetry else None], then the counter
    increment [if _tel].  [telemetry_imported] tells whether the import of
    [get_telemetry] at the top of the module succeeded; [c] is the clock
    reading used if the singleton has to be created. *)
Definition adversarial_bookkeeping (telemetry_imported : bool)
    (c : Telemetry.clock) (w : world) : world :=
  if telemetry_imported then
    let (_tel, _) := Telemetry.get_telemetry (telemetry w) c in
    {| telemetry := Some (count_adversarial_call _tel); log := log w |}
  else w.

(** The prompt built by [evaluate_adversarial]. *)
Definition evaluate_adversarial_prompt
    (from_var to_var mechanism supporting_quote : string) : string :=
  _ADVERSARIAL_TEMPLATE_format from_var to_var mechanism
    (str_or (Some supporting_quote) "(no quote extracted)").

(** The log line written by [evaluate_adversarial] once the verdict is in. *)
Definition adversarial_log (w : world) (from_var to_var : string)
    (verdict : AdversarialVerdict) (_at0 _at1 : Q) : world :=
  logger_info w
    ("[TELEMETRY] Adversarial verdict for %s" ++ rarrow
     ++ "%s: still_grounded=%s  "
     ++ "alternatives=%d  confidence=%.2f  latency=%.1fs")%string
    [JStr from_var; JStr to_var; JBool (still_grounded verdict);
     JInt (len (alternative_explanations verdict));
     JFloat (adv_confidence verdict);
     JFloat (_at1 - _at0)%Q].

(** [VerificationJudge.evaluate_adversarial]; [_at0] and [_at1] are its two
    readings of [time.monotonic()]. *)
Definition evaluate_adversarial (self : VerificationJudge)
    (from_var to_var mechanism supporting_quote : string)
    (telemetry_imported : bool) (c : Telemetry.clock) (_at0 _at1 : Q)
    (w : world) : outcome AdversarialVerdict * world :=
  let prompt :=
    evaluate_adversarial_prompt from_var to_var mechanism supporting_quote in
  let w := adversarial_bookkeeping telemetry_imported c w in
  match llm_adversarial self prompt _ADVERSARIAL_SYSTEM (judge_model self) w with
  | (Returned verdict, w) =>
      (Returned verdict, adversarial_log w from_var to_var verdict _at0 _at1)
  | (Raised error, w) => (Raised error, w)
  end.

(** Sample evidence and a judge whose client never touches the telemetry
    (a test double), for use in examples. *)
Definition sample_chunks : list EvidenceBundle :=
  [{| content := "Marketing spend raised sign-ups.";
      content_hash := "c0ffee";
      source := {| doc_id := "doc-1"; doc_title := Some "Plan.pdf" |};
      location := {| page_number := Some 3; section_name := Some "Growth" |} |};
   {| content := "Feed costs cut into margins.";
      content_hash := "decaf";
      source := {| doc_id := "doc-2"; doc_title := None |};
      location := {| page_number := None; section_name := None |} |}].

Definition sample_verdict : VerificationVerdict :=
  {| is_grounded := true; support_type := DIRECT_CAUSAL;
     supporting_quote := Some "Marketing spend raised sign-ups.";
     rejection_reason := None; confidence := (8 # 10)%Q;
     suggested_refinement_query := None |}.

Definition sample_adversarial_verdict : AdversarialVerdict :=
  {| still_grounded := true; alternative_explanations := [];
     assumptions_required := []; conditions := [];
     adv_confidence := (7 # 10)%Q |}.

Definition mock_judge : VerificationJudge :=
  {| llm_grounding := fun _ _ _ w => (Returned sample_verdict, w);
     llm_adversarial := fun _ _ _ w => (Returned sample_adversarial_verdict, w);
     judge_model := "gemini-2.5-pro" |}.

(** The world of a process whose telemetry singleton is fresh and whose log
    is empty. *)
Definition sample_world : world :=
  {| telemetry := Some (Telemetry.init Telemetry.sample_clock); log := [] |}.

(** An oracle that returns a verdict and leaves the telemetry singleton and
    the log as it found them. *)
Definition answers {V} (o : oracle V) (v : V) : Prop :=
  forall prompt system_prompt model w,
    o prompt system_prompt model w = (Returned v, w).

(** The claim that every judge call raises its counter, read on [evaluate]:
    with a client that does not touch the telemetry, the call raises
    [total_judge_calls] by one. *)
Definition evaluate_counts_judge_call : Prop :=
  forall self from_var to_var mechanism chunks _jt0 _jt1 tel lg v,
    answers (llm_grounding self) v ->
    exists tel',
      telemetry
        (snd (evaluate self from_var to_var mechanism chunks _jt0 _jt1
                {| telemetry := Some tel; log := lg |}))
      = Some tel'
      /\ Telemetry.total_judge_calls (Telemetry.verification tel')
         = Telemetry.total_judge_calls (Telemetry.verification tel) + 1.

End Judge.

(* ================================================================== *)
(** ** src/config.py: VerificationConfig *)
(* ================================================================== *)

Module Config.

Record VerificationConfig : Type := {
  max_judge_iterations : Z;
  grounding_confidence_threshold : Q;
  enable_adversarial_pass : bool;
  judge_model : string;
  llm_semaphore_limit : Z;
  max_retries : Z;
  backoff_base : Q;
  backoff_jitter_max : Q;
  retrieval_top_k : Z
}.

(** The values supplied for a construction (keyword arguments, environment
    variables with prefix CAUSEWAY_VERIFY_, the .env file), already converted
    to the type of their field; [None] where nothing is supplied. *)
Record overrides : Type := {
  o_max_judge_iterations : option Z;
  o_grounding_confidence_threshold : option Q;
  o_enable_adversarial_pass : option bool;
  o_judge_model : option string;
  o_llm_semaphore_limit : option Z;
  o_max_retries : option Z;
  o_backoff_base : option Q;
  o_backoff_jitter_max : option Q;
  o_retrieval_top_k : option Z
}.

Definition no_overrides : overrides :=
  {| o_max_judge_iterations := None;
     o_grounding_confidence_threshold := None;
     o_enable_adversarial_pass := None;
     o_judge_model := None;
     o_llm_semaphore_limit := None;
     o_max_retries := None;
     o_backoff_base := None;
     o_backoff_jitter_max := None;
     o_retrieval_top_k := None |}.

(** A [Field]: the default, and the [ge] / [le] constraints checked on a
    supplied value. *)
Definition field {A} (default : A) (valid : A -> bool) (supplied : option A)
    : option A :=
  match supplied with
  | None => Some default
  | Some v => if valid v then Some v else None
  end.

Definition unconstrained {A} (_ : A) : bool := true.
Definition ge_int (lo v : Z) : bool := lo <=? v.
Definition ge_le_float (lo hi v : Q) : bool := Qle_bool lo v && Qle_bool v hi.

Definition bind {A B} (x : option A) (f : A -> option B) : option B :=
  match x with
  | Some a => f a
  | None => None
  end.

Notation "'do' x <- e ; k" := (bind e (fun x => k))
  (at level 10, x name, e at level 100, k at level 200).

(** The constructor call of [VerificationConfig]: [None] stands for the validation error
    raised by pydantic. *)
Definition construct (o : overrides) : option VerificationConfig :=
  do mji <- field 2 unconstrained (o_max_judge_iterations o);
  do gct <- field 0.4%Q (ge_le_float 0 1)
           (o_grounding_confidence_threshold o);
  do eap <- field false unconstrained (o_enable_adversarial_pass o);
  do jm <- field "gemini-2.5-flash" unconstrained (o_judge_model o);
  do lsl <- field 12 (ge_int 1) (o_llm_semaphore_limit o);
  do mr <- field 5 (ge_int 1) (o_max_retries o);
  do bb <- field 2%Q unconstrained (o_backoff_base o);
  do bjm <- field 5%Q unconstrained (o_backoff_jitter_max o);
  do rtk <- field 5 (ge_int 1) (o_retrieval_top_k o);
  Some {| max_judge_iterations := mji;
          grounding_confidence_threshold := gct;
          enable_adversarial_pass := eap;
          judge_model := jm;
          llm_semaphore_limit := lsl;
          max_retries := mr;
          backoff_base := bb;
          backoff_jitter_max := bjm;
          retrieval_top_k := rtk |}.

(** The value a field takes when the construction succeeds. *)
Definition supplied_or {A} (default : A) (supplied : option A) : A :=
  match supplied with
  | Some v => v
  | None => default
  end.

(** The claim that every accepted configuration has
    [max_judge_iterations >= 1]. *)
Definition max_judge_iterations_bounded : Prop :=
  forall o cfg, construct o = Some cfg -> 1 <= max_judge_iterations cfg.

(** Overrides that supply [max_judge_iterations] only. *)
Definition only_max_judge_iterations (n : Z) : overrides :=
  {| o_max_judge_iterations := Some n;
     o_grounding_confidence_threshold := None;
     o_enable_adversarial_pass := None;
     o_judge_model := None;
     o_llm_semaphore_limit := None;
     o_max_retries := None;
     o_backoff_base := None;
     o_backoff_jitter_max := None;
     o_retrieval_top_k := None |}.

End Config.

(* ================================================================== *)
(** ** Further vocabulary: histories, cached configuration, failing clients *)
(* ================================================================== *)

Module History.
Import Py Telemetry.

(** The reading stored by the last [stage_start stage] since the last
    [reset], if any. *)
Definition last_start (stage : string) (ks : list call) : option Q :=
  fold_left
    (fun acc k =>
       match k with
       | Reset _ => None
       | StageStart s t0 _ => if (s =? stage)%string then Some t0 else acc
       | _ => acc
       end) ks None.

(** The [elapsed] that [stage_end] derives from a stored start reading. *)
Definition elapsed_from (start : option Q) (now : Q) : Q :=
  match start with
  | Some t0 => if float_truthy t0 then (now - t0)%Q else 0%Q
  | None => 0%Q
  end.

(** The calls that append an event to the log. *)
Definition appends_event (k : call) : bool :=
  match k with
  | StageStart _ _ _ | StageEnd _ _ _ _ | Record_ _ _ _ _
  | RecordLlmRetry _ _ _ _ | RecordLlmError _ _ _ _ | RecordLlmFallback _ _
  | RecordVerificationVerdict _ _ _ _ _ _ _ _ _ _ => true
  | _ => false
  end.

Definition is_llm_call_for (model : string) (k : call) : bool :=
  match k with
  | RecordLlmCall m _ _ _ _ _ => (m =? model)%string
  | _ => false
  end.

Definition is_record_pywhyllm_pair (k : call) : bool :=
  match k with RecordPywhyllmPair _ _ _ _ _ _ _ => true | _ => false end.

Definition is_record_verification_verdict (k : call) : bool :=
  match k with
  | RecordVerificationVerdict _ _ _ _ _ _ _ _ _ _ => true
  | _ => false
  end.

Definition is_rejection (k : call) : bool :=
  match k with
  | RecordVerificationFinal _ _ grounded _ _ => negb grounded
  | _ => false
  end.

Definition is_record_var_id_resolve_miss (k : call) : bool :=
  match k with RecordVarIdResolveMiss _ _ _ => true | _ => false end.

Definition is_quota_error (k : call) : bool :=
  match k with RecordLlmError _ _ is_quota _ => is_quota | _ => false end.

(** The clock reading under which a call logs its event, if it logs one. *)
Definition event_clock (k : call) : option clock :=
  match k with
  | StageStart _ _ c | StageEnd _ _ _ c | Record_ _ _ _ c
  | RecordLlmRetry _ _ _ c | RecordLlmError _ _ _ c | RecordLlmFallback _ c
  | RecordVerificationVerdict _ _ _ _ _ _ _ _ _ c => Some c
  | _ => None
  end.

(** The readings of the event-logging calls since the last [reset], in call
    order. *)
Definition event_clocks (ks : list call) : list clock :=
  fold_left
    (fun acc k =>
       match k with
       | Reset _ => []
       | _ => match event_clock k with
              | Some c => acc ++ [c]
              | None => acc
              end
       end) ks [].

(** The two clock fields of an event. *)
Definition clock_of (e : TelemetryEvent) : clock :=
  {| monotonic := timestamp e; isoformat := wall_clock e |}.

(** [d.get(k, 0)]. *)
Definition get_or_0 (d : dict Z) (k : string) : Z :=
  match dict_get d k with
  | Some n => n
  | None => 0
  end.

(** The sample lists run in step with their counters. *)
Definition samples_in_step (t : PipelineTelemetry) : Prop :=
  len (latency_samples_ms (llm t)) = total_calls (llm t)
  /\ len (per_call_latency_ms (pywhyllm t)) = total_pairs (pywhyllm t)
  /\ len (verdict_confidences (verification t))
     = total_judge_calls (verification t)
  /\ len (rejection_reasons (verification t))
     = rejected_count (verification t).

(** Sub-counters stay within their counters. *)
Definition sub_counters_bounded (t : PipelineTelemetry) : Prop :=
  0 <= total_quota_errors (llm t) <= total_errors (llm t)
  /\ 0 <= pairs_normalized (pywhyllm t) <= total_pairs (pywhyllm t).

(** The retained raw outputs are the first 200 pairs. *)
Definition raw_tracks_pairs (t : PipelineTelemetry) : Prop :=
  len (raw_outputs (pywhyllm t)) = Z.min (total_pairs (pywhyllm t)) 200.

(** Every model present in [calls_by_model] has a positive count. *)
Definition models_positive (t : PipelineTelemetry) : Prop :=
  forall m n, dict_get (calls_by_model (llm t)) m = Some n -> 0 < n.

(** [xs] is an initial segment of [s]. *)
Definition is_prefix (x s : string) : Prop :=
  exists rest, s = (x ++ rest)%string.

(** What a slice [s[:n]] keeps: a prefix of at most [n] characters, the
    whole string when it is that short. *)
Definition truncated (n : nat) (s kept : string) : Prop :=
  is_prefix kept s
  /\ str_len kept <= Z.of_nat n
  /\ (str_len s <= Z.of_nat n -> kept = s).

(** The last element of a list, if any. *)
Definition last_opt {A} (xs : list A) : option A :=
  match rev xs with
  | [] => None
  | x :: _ => Some x
  end.

(** [j[k1][k2]] on nested JSON objects. *)
Definition json_get2 (j : json) (k1 k2 : string) : option json :=
  match json_get j k1 with
  | Some j1 => json_get j1 k2
  | None => None
  end.

(** Number of entries of a JSON list. *)
Definition json_list_len (j : option json) : option Z :=
  match j with
  | Some (JList l) => Some (len l)
  | _ => None
  end.

(** Two hundred and one pairwise results, for use in examples. *)
Definition many_pairs : list call :=
  repeat (RecordPywhyllmPair "x" "y" "C" "none" 100%Q None false) 201.

End History.

Module Cache.
Import Config.

(** [functools.lru_cache] around a function without arguments: once a call
    has returned, its value is kept and returned by every later call; a call
    that raises stores nothing.  [env] is what the wrapped constructor would
    read at the time of the call. *)
Definition lru_cache {E A} (f : E -> option A) (cache : option A) (env : E)
    : option A * option A :=
  match cache with
  | Some v => (Some v, cache)
  | None =>
      match f env with
      | Some v => (Some v, Some v)
      | None => (None, None)
      end
  end.

(** [get_verification_config]: result and new cache. *)
Definition get_verification_config (cache : option VerificationConfig)
    (env : overrides) : option VerificationConfig * option VerificationConfig :=
  lru_cache construct cache env.

(** The supplied values that carry a constraint are within it. *)
Definition within_bounds (o : overrides) : bool :=
  match o_grounding_confidence_threshold o with
  | Some v => ge_le_float 0 1 v
  | None => true
  end
  && match o_llm_semaphore_limit o with
     | Some v => ge_int 1 v
     | None => true
     end
  && match o_max_retries o with
     | Some v => ge_int 1 v
     | None => true
     end
  && match o_retrieval_top_k o with
     | Some v => ge_int 1 v
     | None => true
     end.

(** Overrides asking for a strict threshold and a zero semaphore limit. *)
Definition sample_bad_overrides : overrides :=
  {| o_max_judge_iterations := None;
     o_grounding_confidence_threshold := Some 0.6%Q;
     o_enable_adversarial_pass := None;
     o_judge_model := None;
     o_llm_semaphore_limit := Some 0;
     o_max_retries := None;
     o_backoff_base := None;
     o_backoff_jitter_max := None;
     o_retrieval_top_k := None |}.

End Cache.

Module Failing.
Import Py Judge.

(** An oracle that raises [error] and leaves the telemetry singleton and the
    log as it found them. *)
Definition raises {V} (o : oracle V) (error : string) : Prop :=
  forall prompt system_prompt model w,
    o prompt system_prompt model w = (Raised error, w).

(** A judge whose client always fails (a test double). *)
Definition failing_judge : VerificationJudge :=
  {| llm_grounding := fun _ _ _ w => (Raised "503 unavailable", w);
     llm_adversarial := fun _ _ _ w => (Raised "503 unavailable", w);
     judge_model := "gemini-2.5-pro" |}.

(** The page number shown for a chunk: absent when [None] or 0. *)
Definition shown_page (chunk : EvidenceBundle) : option Z :=
  match page_number (location chunk) with
  | Some n => if int_truthy n then Some n else None
  | None => None
  end.

(** The section name shown for a chunk: absent when [None] or empty. *)
Definition shown_section (chunk : EvidenceBundle) : option string :=
  match section_name (location chunk) with
  | Some s => if str_truthy s then Some s else None
  | None => None
  end.

End Failing.

(* ================================================================== *)
(** * Properties *)
(* ================================================================== *)

(** ** Telemetry: invariants of call sequences *)

Section TelemetryRuns.
Import Py Telemetry.

Lemma run_snoc t ks k : run t (ks ++ [k]) = step (run t ks) k.
Proof. unfold run. rewrite fold_left_app. reflexivity. Qed.

Lemma run_cons t k ks : run t (k :: ks) = run (step t k) ks.
Proof. reflexivity. Qed.

(** A property kept by every call holds after any sequence of calls. *)
Lemma run_preserves (P : PipelineTelemetry -> Prop) :
  (forall t k, P t -> P (step t k)) ->
  forall ks t, P t -> P (run t ks).
Proof.
  intros Hstep ks. induction ks as [|k ks IH]; intros t Ht; [exact Ht|].
  rewrite run_cons. apply IH, Hstep, Ht.
Qed.

Lemma len_app {A} (xs ys : list A) : len (xs ++ ys) = len xs + len ys.
Proof. unfold len. rewrite length_app. lia. Qed.

Lemma count_events_record st ev t s e d c :
  count_events st ev (record t s e d c)
  = count_events st ev t
    + (if (s =? st)%string && (e =? ev)%string then 1 else 0).
Proof.
  unfold count_events, record. cbn [events with_events].
  rewrite filter_app, len_app. unfold is_event at 2. cbn.
  destruct ((s =? st)%string && (e =? ev)%string); reflexivity.
Qed.

Lemma step_pairs_partitioned t k :
  pairs_partitioned t -> pairs_partitioned (step t k).
Proof.
  unfold pairs_partitioned. destruct k; cbn; try (intros; lia); try tauto.
  destruct (classify_pair answer error); cbn; lia.
Qed.

Lemma step_verdicts t k :
  verdicts (step t k) = tally is_record_verification_final (verdicts t) k.
Proof.
  unfold verdicts. destruct k; cbn; try reflexivity.
  destruct grounded; cbn; lia.
Qed.

Lemma run_verdicts ks : forall t n,
  verdicts t = n ->
  verdicts (run t ks) = fold_left (tally is_record_verification_final) ks n.
Proof.
  induction ks as [|k ks IH]; intros t n H; [exact H|].
  rewrite run_cons. cbn [fold_left]. apply IH.
  rewrite step_verdicts, H. reflexivity.
Qed.

(** Without a [reset] in the sequence, the tally is the plain count. *)
Lemma tally_no_reset p ks : forall n,
  forallb (fun k => negb (is_reset k)) ks = true ->
  fold_left (tally p) ks n = n + len (filter p ks).
Proof.
  induction ks as [|k ks IH]; intros n H; cbn [fold_left filter].
  - unfold len. cbn. lia.
  - cbn in H. apply andb_true_iff in H as [Hk Hks].
    rewrite (IH _ Hks). unfold tally.
    destruct k; cbn in Hk; try discriminate;
      match goal with
      | |- context [if p ?k then _ else _] => destruct (p k)
      end; unfold len; cbn [List.length]; lia.
Qed.

End TelemetryRuns.

(** C3. After any sequence of calls on a freshly constructed telemetry
    instance (in particular any sequence of record_pywhyllm_pair and
    record_verification_final calls), pywhyllm.total_pairs equals
    pairs_a + pairs_b + pairs_c + pairs_parse_fail + pairs_exception, and
    verification.grounded_count + verification.rejected_count equals the
    number of record_verification_final calls made: counted since the last
    reset in general, which is all of them when the sequence contains no
    reset. *)
Theorem pair_and_verdict_counters_consistent :
  forall (c : Telemetry.clock) (ks : list Telemetry.call),
    let t := Telemetry.run (Telemetry.init c) ks in
    let p := Telemetry.pywhyllm t in
    let v := Telemetry.verification t in
    Telemetry.total_pairs p
    = Telemetry.pairs_a p + Telemetry.pairs_b p + Telemetry.pairs_c p
      + Telemetry.pairs_parse_fail p + Telemetry.pairs_exception p
    /\ Telemetry.grounded_count v + Telemetry.rejected_count v
       = Telemetry.calls_since_reset
           Telemetry.is_record_verification_final ks
    /\ (forallb (fun k => negb (Telemetry.is_reset k)) ks = true ->
        Telemetry.grounded_count v + Telemetry.rejected_count v
        = Py.len (filter Telemetry.is_record_verification_final ks)).
Proof.
  intros c ks. cbv zeta.
  assert (Hv : Telemetry.verdicts (Telemetry.run (Telemetry.init c) ks)
               = Telemetry.calls_since_reset
                   Telemetry.is_record_verification_final ks)
    by (apply (run_verdicts ks (Telemetry.init c) 0); reflexivity).
  split; [|split].
  - apply (run_preserves Telemetry.pairs_partitioned step_pairs_partitioned).
    reflexivity.
  - exact Hv.
  - intros Hnr. fold (Telemetry.verdicts (Telemetry.run (Telemetry.init c) ks)).
    rewrite Hv. unfold Telemetry.calls_since_reset.
    rewrite (tally_no_reset _ ks 0 Hnr). lia.
Qed.

Lemma pair_and_verdict_counters_consistent_witness :
  forallb (fun k => negb (Telemetry.is_reset k)) Telemetry.sample_calls = true
  /\ Telemetry.grounded_count
       (Telemetry.verification
          (Telemetry.run (Telemetry.init Telemetry.sample_clock)
             Telemetry.sample_calls))
     + Telemetry.rejected_count
         (Telemetry.verification
            (Telemetry.run (Telemetry.init Telemetry.sample_clock)
               Telemetry.sample_calls))
     = Py.len
         (filter Telemetry.is_record_verification_final Telemetry.sample_calls).
Proof.
  split; [reflexivity|].
  apply (pair_and_verdict_counters_consistent Telemetry.sample_clock
           Telemetry.sample_calls).
  reflexivity.
Defined.

Section TelemetryCounters.
Import Py Telemetry.

Lemma run_preserves_if (P : PipelineTelemetry -> Prop) (ok : call -> bool) :
  (forall t k, ok k = true -> P t -> P (step t k)) ->
  forall ks t, forallb ok ks = true -> P t -> P (run t ks).
Proof.
  intros Hstep ks. induction ks as [|k ks IH]; intros t Hok Ht; [exact Ht|].
  cbn in Hok. apply andb_true_iff in Hok as [Hk Hks].
  rewrite run_cons. apply IH; [exact Hks|]. apply Hstep; assumption.
Qed.

Lemma est_record_llm_call t m pc cc lat pt ct :
  est (record_llm_call t m pc cc lat pt ct)
  = if int_truthy pt then Z.max (est t + pc / 4) pt else est t + pc / 4.
Proof. unfold est. cbn. destruct (int_truthy pt); reflexivity. Qed.

Lemma run_default_prompt_tokens ks : forall t,
  forallb default_prompt_tokens ks = true ->
  est (run t ks) = est t + sum_prompt_chars_div4 ks.
Proof.
  induction ks as [|k ks IH]; intros t H; cbn [sum_prompt_chars_div4].
  - cbn. lia.
  - cbn in H. apply andb_true_iff in H as [Hk Hks].
    rewrite run_cons, (IH _ Hks).
    destruct k; cbn in Hk; try discriminate.
    apply Z.eqb_eq in Hk. subst prompt_tokens.
    cbn [step]. rewrite est_record_llm_call. cbn. lia.
Qed.

Lemma est_record_llm_call_pos t m pc cc lat pt ct :
  0 < pt ->
  est (record_llm_call t m pc cc lat pt ct) = Z.max (est t + pc / 4) pt.
Proof.
  intros Hpt. rewrite est_record_llm_call. unfold int_truthy.
  destruct (Z.eqb_spec pt 0); [lia | reflexivity].
Qed.

Lemma count_events_same st ev t t' :
  events t = events t' -> count_events st ev t = count_events st ev t'.
Proof. unfold count_events. intros ->. reflexivity. Qed.

Ltac count_step :=
  repeat match goal with
  | |- context [count_events ?st ?ev (record ?t ?s ?e ?d ?c)] =>
      rewrite (count_events_record st ev t s e d c)
  end;
  cbn [String.eqb Ascii.eqb Bool.eqb andb];
  rewrite ?andb_false_r.

Ltac same_events :=
  unfold count_events in *;
  cbn [events with_events with_stage_starts with_stage_durations with_llm
       with_pywhyllm with_verification with_var_id_resolve_misses
       record_llm_call record_pywhyllm_pair record_verification_final
       record_var_id_resolve_miss reset].

Lemma step_logged t k : unforged k = true -> logged t -> logged (step t k).
Proof.
  unfold logged. intros Hk (Hr & He & Hf & Hj).
  destruct k as [ | | | s e d c | | | | | | | | ];
    cbn [step]; cbn [unforged] in Hk;
    unfold stage_start, stage_end, record_llm_retry, record_llm_error,
      record_llm_fallback, record_verification_verdict;
    count_step; same_events.
  2-3, 5-12: rewrite <- Hr, <- He, <- Hf, <- Hj; cbn; repeat split; lia.
  - cbn. repeat split; reflexivity.
  - rewrite <- Hr, <- He, <- Hf, <- Hj.
    apply negb_true_iff in Hk. unfold derived_tag in Hk.
    destruct (s =? "llm")%string, (s =? "verification")%string,
      (e =? "retry")%string, (e =? "error")%string,
      (e =? "native_to_prompt_fallback")%string,
      (e =? "judge_verdict")%string;
      cbn in Hk; try discriminate; cbn; repeat split; lia.
Qed.

Lemma step_total_calls t k :
  total_calls (llm (step t k))
  = tally is_record_llm_call (total_calls (llm t)) k.
Proof. destruct k; reflexivity. Qed.

Lemma run_total_calls ks : forall t n,
  total_calls (llm t) = n ->
  total_calls (llm (run t ks)) = fold_left (tally is_record_llm_call) ks n.
Proof.
  induction ks as [|k ks IH]; intros t n H; [exact H|].
  rewrite run_cons. cbn [fold_left]. apply IH.
  rewrite step_total_calls, H. reflexivity.
Qed.

End TelemetryCounters.

(** C1 (counterexample). One [record_llm_call] on a fresh instance raises
    [llm.total_calls] to 1 while the event log stays empty: whatever class of
    events is taken to record an LLM call, its count (0) differs from the
    counter. *)
Lemma llm_calls_are_not_logged :
  ~ exists is_llm_call_event, Telemetry.llm_calls_are_logged is_llm_call_event.
Proof.
  intros [f H].
  specialize (H Telemetry.sample_clock
                [Telemetry.RecordLlmCall "gemini-2.5-flash" 1000 500 250 0 0]
                eq_refl).
  cbn in H. discriminate H.
Qed.

(** C1 (amended). After any sequence of calls on a fresh instance in which
    the generic record is not itself used to log one of the derived tags, the
    counters whose recorders log a derived event equal the number of those
    events in the log: llm.total_retries counts the llm/retry events,
    llm.total_errors the llm/error events, llm.total_fallbacks the
    llm/native_to_prompt_fallback events and verification.total_judge_calls
    the verification/judge_verdict events.  record_llm_call appends no event:
    llm.total_calls equals the number of record_llm_call calls made since the
    last reset. *)
Theorem derived_event_counters_consistent :
  forall (c : Telemetry.clock) (ks : list Telemetry.call),
    forallb Telemetry.unforged ks = true ->
    let t := Telemetry.run (Telemetry.init c) ks in
    Telemetry.total_retries (Telemetry.llm t)
    = Telemetry.count_events "llm" "retry" t
    /\ Telemetry.total_errors (Telemetry.llm t)
       = Telemetry.count_events "llm" "error" t
    /\ Telemetry.total_fallbacks (Telemetry.llm t)
       = Telemetry.count_events "llm" "native_to_prompt_fallback" t
    /\ Telemetry.total_judge_calls (Telemetry.verification t)
       = Telemetry.count_events "verification" "judge_verdict" t
    /\ Telemetry.total_calls (Telemetry.llm t)
       = Telemetry.calls_since_reset Telemetry.is_record_llm_call ks
    /\ (forall m pc cc lat pt ct,
          Telemetry.events (Telemetry.record_llm_call t m pc cc lat pt ct)
          = Telemetry.events t).
Proof.
  intros c ks Hks. cbv zeta.
  pose proof (run_preserves_if Telemetry.logged Telemetry.unforged step_logged ks
                (Telemetry.init c) Hks) as Hlog.
  destruct Hlog as (Hr & He & Hf & Hj).
  { repeat split; reflexivity. }
  repeat split; try assumption.
  apply (run_total_calls ks (Telemetry.init c) 0). reflexivity.
Qed.

Lemma derived_event_counters_consistent_witness :
  forallb Telemetry.unforged Telemetry.sample_calls = true
  /\ Telemetry.total_retries
       (Telemetry.llm
          (Telemetry.run (Telemetry.init Telemetry.sample_clock)
             Telemetry.sample_calls))
     = Telemetry.count_events "llm" "retry"
         (Telemetry.run (Telemetry.init Telemetry.sample_clock)
            Telemetry.sample_calls).
Proof.
  split; [reflexivity|].
  apply (derived_event_counters_consistent Telemetry.sample_clock
           Telemetry.sample_calls).
  reflexivity.
Defined.

(** C10 (counterexample). A call passing prompt_tokens does not replace the
    estimate by the maximum of the estimate it found and prompt_tokens: on a
    fresh instance, whose estimate is 0, a call with 4001 prompt characters
    and prompt_tokens = 900 leaves the estimate at 1000, not at 900. *)
Lemma prompt_tokens_do_not_replace_estimate :
  ~ Telemetry.prompt_tokens_replace_estimate.
Proof.
  intros H.
  specialize (H (Telemetry.init Telemetry.sample_clock) "gemini-2.5-flash"
                4001 0 0%Q 900 0 eq_refl).
  vm_compute in H. discriminate H.
Qed.

(** C10 (amended). For every sequence of record_llm_call calls on a fresh
    instance that leave prompt_tokens at its default 0,
    llm.total_prompt_tokens_est equals the sum over the calls of
    prompt_chars // 4.  A call passing prompt_tokens > 0 adds
    prompt_chars // 4 like every other call and then raises the result to
    prompt_tokens where it is smaller: the estimate becomes the maximum of
    the previous estimate plus prompt_chars // 4 and prompt_tokens.
    prompt_tokens itself is never added, so the estimate is not additive
    across such calls: two equal calls on a fresh instance leave it at
    max(max(prompt_chars // 4, prompt_tokens) + prompt_chars // 4,
    prompt_tokens), which is prompt_tokens when there are no prompt
    characters. *)
Theorem prompt_token_estimate :
  forall (c : Telemetry.clock) (ks : list Telemetry.call)
         (t : Telemetry.PipelineTelemetry) (model : string)
         (prompt_chars completion_chars : Z) (latency_ms : Q)
         (prompt_tokens completion_tokens : Z),
    forallb Telemetry.default_prompt_tokens ks = true ->
    0 < prompt_tokens ->
    Telemetry.total_prompt_tokens_est
      (Telemetry.llm (Telemetry.run (Telemetry.init c) ks))
    = Telemetry.sum_prompt_chars_div4 ks
    /\ Telemetry.total_prompt_tokens_est
         (Telemetry.llm
            (Telemetry.record_llm_call t model prompt_chars completion_chars
               latency_ms prompt_tokens completion_tokens))
       = Z.max
           (Telemetry.total_prompt_tokens_est (Telemetry.llm t)
            + prompt_chars / 4)
           prompt_tokens
    /\ Telemetry.total_prompt_tokens_est
         (Telemetry.llm
            (Telemetry.run (Telemetry.init c)
               [Telemetry.RecordLlmCall model 0 0 latency_ms prompt_tokens 0;
                Telemetry.RecordLlmCall model 0 0 latency_ms prompt_tokens 0]))
       = prompt_tokens
    /\ Telemetry.total_prompt_tokens_est
         (Telemetry.llm
            (Telemetry.run (Telemetry.init c)
               [Telemetry.RecordLlmCall model prompt_chars completion_chars
                  latency_ms prompt_tokens completion_tokens;
                Telemetry.RecordLlmCall model prompt_chars completion_chars
                  latency_ms prompt_tokens completion_tokens]))
       = Z.max (Z.max (prompt_chars / 4) prompt_tokens + prompt_chars / 4)
           prompt_tokens.
Proof.
  intros c ks t model pc cc lat pt ct Hks Hpt. split; [|split; [|split]].
  - apply (run_default_prompt_tokens ks (Telemetry.init c) Hks).
  - apply (est_record_llm_call_pos t model pc cc lat pt ct Hpt).
  - unfold Telemetry.run. cbn [fold_left Telemetry.step].
    match goal with
    | |- Telemetry.total_prompt_tokens_est (Telemetry.llm ?s) = _ =>
        change (Telemetry.est s = pt)
    end.
    rewrite !est_record_llm_call_pos by exact Hpt.
    change (Telemetry.est (Telemetry.init c)) with 0. cbn. lia.
  - unfold Telemetry.run. cbn [fold_left Telemetry.step].
    match goal with
    | |- Telemetry.total_prompt_tokens_est (Telemetry.llm ?s) = ?r =>
        change (Telemetry.est s = r)
    end.
    rewrite !est_record_llm_call_pos by exact Hpt.
    change (Telemetry.est (Telemetry.init c)) with 0.
    rewrite Z.add_0_l. reflexivity.
Qed.

Lemma prompt_token_estimate_witness :
  forallb Telemetry.default_prompt_tokens
    [Telemetry.RecordLlmCall "gemini-2.5-flash" 1000 500 250 0 0;
     Telemetry.RecordLlmCall "gemini-2.5-pro" 2003 800 1200 0 0] = true
  /\ 0 < 900
  /\ Telemetry.total_prompt_tokens_est
       (Telemetry.llm
          (Telemetry.run (Telemetry.init Telemetry.sample_clock)
             [Telemetry.RecordLlmCall "gemini-2.5-flash" 1000 500 250 0 0;
              Telemetry.RecordLlmCall "gemini-2.5-pro" 2003 800 1200 0 0]))
     = 750
  /\ Telemetry.total_prompt_tokens_est
       (Telemetry.llm
          (Telemetry.record_llm_call (Telemetry.init Telemetry.sample_clock)
             "gemini-2.5-flash" 4001 0 0%Q 900 0))
     = 1000
  /\ Telemetry.total_prompt_tokens_est
       (Telemetry.llm
          (Telemetry.run (Telemetry.init Telemetry.sample_clock)
             [Telemetry.RecordLlmCall "gemini-2.5-flash" 4001 0 0%Q 900 0;
              Telemetry.RecordLlmCall "gemini-2.5-flash" 4001 0 0%Q 900 0]))
     = 2000.
Proof.
  split; [reflexivity|]. split; [lia|].
  destruct (prompt_token_estimate Telemetry.sample_clock
              [Telemetry.RecordLlmCall "gemini-2.5-flash" 1000 500 250 0 0;
               Telemetry.RecordLlmCall "gemini-2.5-pro" 2003 800 1200 0 0]
              (Telemetry.init Telemetry.sample_clock) "gemini-2.5-flash"
              4001 0 0%Q 900 0 eq_refl eq_refl)
    as (Hsum & Hone & _ & Htwo).
  split; [exact Hsum|]. split; [exact Hone | exact Htwo].
Defined.

(** ** Telemetry: stage timing, reset and summary *)

Section TelemetryState.
Import Py Telemetry.

Lemma dict_get_set_same {V} (d : dict V) k v :
  dict_get (dict_set d k v) k = Some v.
Proof.
  induction d as [|[k' v'] d IH]; cbn.
  - rewrite String.eqb_refl. reflexivity.
  - destruct (String.eqb_spec k' k) as [->|Hne]; cbn.
    + rewrite String.eqb_refl. reflexivity.
    + destruct (String.eqb_spec k' k); [contradiction | exact IH].
Qed.

Lemma dict_get_set_other {V} (d : dict V) k k' v :
  k' <> k -> dict_get (dict_set d k' v) k = dict_get d k.
Proof.
  intros Hne. induction d as [|[k0 v0] d IH]; cbn.
  - destruct (String.eqb_spec k' k); [contradiction | reflexivity].
  - destruct (String.eqb_spec k0 k') as [->|H0]; cbn.
    + destruct (String.eqb_spec k' k); [contradiction | reflexivity].
    + destruct (String.eqb_spec k0 k); [reflexivity | exact IH].
Qed.

Lemma dict_get_update_other {V} (e : dict V) k : forall d,
  dict_get e k = None -> dict_get (dict_update d e) k = dict_get d k.
Proof.
  unfold dict_update.
  induction e as [|[k' v'] e IH]; intros d He; cbn in *; [reflexivity|].
  destruct (String.eqb_spec k' k) as [|Hne]; [discriminate|].
  rewrite (IH _ He). apply dict_get_set_other, Hne.
Qed.

(** With no [stage_start stage] since the last reset, [stage_starts] has no
    entry for [stage]. *)
Lemma not_started_no_entry stage ks : forall t b,
  (b = false -> dict_get (stage_starts t) stage = None) ->
  fold_left
    (fun b k =>
       match k with
       | Reset _ => false
       | StageStart s _ _ => b || (s =? stage)%string
       | _ => b
       end) ks b = false ->
  dict_get (stage_starts (run t ks)) stage = None.
Proof.
  induction ks as [|k ks IH]; intros t b Hb H; cbn in H.
  - apply Hb, H.
  - rewrite run_cons. eapply IH; [|exact H].
    destruct k as [ | s t0 c | | | | | | | | | | ]; try exact Hb.
    + intros _. reflexivity.
    + intros Hor. apply orb_false_iff in Hor as [Hb' Hs].
      unfold step, stage_start, record. cbn [stage_starts with_events
        with_stage_starts].
      rewrite dict_get_set_other; [apply Hb, Hb'|].
      apply String.eqb_neq, Hs.
Qed.

Lemma round_zero n : round 0 n = 0%Q.
Proof.
  unfold round, round_half_even.
  replace (0 * inject_Z (10 ^ Z.of_nat n))%Q with 0%Q
    by (unfold Qmult; cbn; reflexivity).
  cbn. reflexivity.
Qed.

End TelemetryState.

(** C7. For every stage name, calling stage_end for a stage with no
    stage_start recorded (since construction or the last reset) does not
    fail: the stage duration recorded for it is exactly zero seconds, and
    one stage_end event for that stage is appended to the log; its payload
    reports zero elapsed seconds unless the caller's extra overrides that
    key. *)
Theorem stage_end_without_start :
  forall (c : Telemetry.clock) (ks : list Telemetry.call) (stage : string)
         (extra : option (Py.dict Py.json)) (now : Q) (c' : Telemetry.clock),
    Telemetry.started stage ks = false ->
    let t := Telemetry.run (Telemetry.init c) ks in
    let t' := Telemetry.stage_end t stage extra now c' in
    Py.dict_get (Telemetry.stage_durations t') stage = Some 0%Q
    /\ exists ev,
         Telemetry.events t' = Telemetry.events t ++ [ev]
         /\ Telemetry.stage ev = stage
         /\ Telemetry.event ev = "stage_end"
         /\ (match extra with
             | Some e => Py.dict_get e "elapsed_seconds" = None
             | None => True
             end ->
             Py.dict_get (Telemetry.data ev) "elapsed_seconds"
             = Some (Py.JFloat 0%Q)).
Proof.
  intros c ks stage extra now c' Hns. cbv zeta.
  assert (Hnone : Py.dict_get
            (Telemetry.stage_starts (Telemetry.run (Telemetry.init c) ks))
            stage = None).
  { apply (not_started_no_entry stage ks (Telemetry.init c) false);
      [reflexivity | exact Hns]. }
  unfold Telemetry.stage_end, Telemetry.stage_elapsed. rewrite Hnone.
  unfold Telemetry.record.
  cbn [Telemetry.stage_durations Telemetry.events Telemetry.with_events
       Telemetry.with_stage_durations].
  split; [apply dict_get_set_same|].
  eexists. split; [reflexivity|].
  cbn [Telemetry.stage Telemetry.event Telemetry.data].
  split; [reflexivity|]. split; [reflexivity|].
  rewrite round_zero.
  destruct extra as [[|kv e]|]; intros He; try reflexivity.
  rewrite dict_get_update_other by exact He. reflexivity.
Qed.

Lemma stage_end_without_start_witness :
  Telemetry.started "verification" Telemetry.sample_calls = false
  /\ Py.dict_get
       (Telemetry.stage_durations
          (Telemetry.stage_end
             (Telemetry.run (Telemetry.init Telemetry.sample_clock)
                Telemetry.sample_calls)
             "verification" None 7%Q Telemetry.sample_clock))
       "verification" = Some 0%Q.
Proof.
  split; [reflexivity|].
  apply (stage_end_without_start Telemetry.sample_clock Telemetry.sample_calls
           "verification" None 7%Q Telemetry.sample_clock).
  reflexivity.
Defined.


(** C2 (counterexample). One second apart, two calls of summary on the same
    untouched instance return different dictionaries: total_run_seconds is
    1.0 in the first and 2.0 in the second. *)
Lemma summary_depends_on_clock :
  Telemetry.summary (Telemetry.init Telemetry.sample_clock) 1%Q
  <> Telemetry.summary (Telemetry.init Telemetry.sample_clock) 2%Q.
Proof. intros H. vm_compute in H. discriminate H. Qed.

(** C2 (amended). summary assigns to no attribute of the instance, and two
    calls with no intervening mutating call return dictionaries that agree on
    every key except total_run_seconds, which is the time elapsed since
    run_start at the moment of each call, rounded to two decimals; the two
    dictionaries are identical whenever that rounded elapsed time is the
    same. *)
Theorem summary_idempotent_up_to_clock :
  forall (t : Telemetry.PipelineTelemetry) (now1 now2 : Q),
    Py.json_remove (Telemetry.summary t now1) "total_run_seconds"
    = Py.json_remove (Telemetry.summary t now2) "total_run_seconds"
    /\ Py.json_get (Telemetry.summary t now1) "total_run_seconds"
       = Some (Py.JFloat (Py.round (now1 - Telemetry.run_start t) 2))
    /\ (Py.round (now1 - Telemetry.run_start t) 2
        = Py.round (now2 - Telemetry.run_start t) 2 ->
        Telemetry.summary t now1 = Telemetry.summary t now2).
Proof.
  intros t now1 now2. split; [|split].
  - reflexivity.
  - reflexivity.
  - intros H. unfold Telemetry.summary. rewrite H. reflexivity.
Qed.

Lemma summary_idempotent_up_to_clock_witness :
  Py.round (1 - Telemetry.run_start (Telemetry.init Telemetry.sample_clock)) 2
  = Py.round
      ((1001 # 1000) - Telemetry.run_start (Telemetry.init Telemetry.sample_clock))
      2
  /\ Telemetry.summary (Telemetry.init Telemetry.sample_clock) 1%Q
     = Telemetry.summary (Telemetry.init Telemetry.sample_clock) (1001 # 1000)%Q.
Proof.
  split; [reflexivity|].
  apply (summary_idempotent_up_to_clock
           (Telemetry.init Telemetry.sample_clock) 1%Q (1001 # 1000)%Q).
  reflexivity.
Defined.

(** ** Judge: evidence rendering *)

Section Rendering.
Import Py Judge.
Local Open Scope string_scope.

Lemma append_assoc (a b c : string) : (a ++ b) ++ c = a ++ b ++ c.
Proof. induction a as [|x a IH]; cbn; [reflexivity | rewrite IH; reflexivity]. Qed.

Lemma append_empty_r (a : string) : a ++ EmptyString = a.
Proof. induction a as [|x a IH]; cbn; [reflexivity | rewrite IH; reflexivity]. Qed.

Lemma infix_refl x : is_infix x x.
Proof. exists EmptyString, EmptyString. rewrite append_empty_r. reflexivity. Qed.

Lemma infix_app_l x s t : is_infix x s -> is_infix x (s ++ t).
Proof.
  intros (pre & post & ->). exists pre, (post ++ t).
  rewrite !append_assoc. reflexivity.
Qed.

Lemma infix_app_r x s t : is_infix x t -> is_infix x (s ++ t).
Proof.
  intros (pre & post & ->). exists (s ++ pre), post.
  rewrite !append_assoc. reflexivity.
Qed.

Lemma infix_trans x y z : is_infix x y -> is_infix y z -> is_infix x z.
Proof.
  intros Hxy (pre & post & ->). apply infix_app_r, infix_app_l, Hxy.
Qed.

(** Every joined part occurs in the joined string. *)
Lemma infix_join sep x xs : In x xs -> is_infix x (join sep xs).
Proof.
  unfold join. induction xs as [|y ys IH]; intros Hin; [contradiction|].
  cbn [String.concat]. destruct ys as [|z zs].
  - destruct Hin as [->|[]]. apply infix_refl.
  - destruct Hin as [->|Hin].
    + apply infix_app_l, infix_refl.
    + apply infix_app_r, infix_app_r, IH, Hin.
Qed.

Lemma format_parts_length chunks : forall i,
  List.length (format_parts i chunks) = List.length chunks.
Proof.
  induction chunks as [|ch chunks IH]; intros i; cbn; [reflexivity|].
  rewrite IH. reflexivity.
Qed.

(** The part rendered for the chunk at position [n] carries number
    [start + n]. *)
Lemma format_parts_nth chunks : forall (n : nat) (start : Z) chunk,
  nth_error chunks n = Some chunk ->
  nth_error (format_parts start chunks) n
  = Some (format_chunk (start + Z.of_nat n) chunk).
Proof.
  induction chunks as [|ch chunks IH]; intros n start chunk H.
  - destruct n; discriminate H.
  - destruct n as [|n]; cbn in H.
    + injection H as ->. cbn. rewrite Z.add_0_r. reflexivity.
    + cbn [format_parts nth_error]. rewrite (IH n (start + 1)%Z chunk H).
      do 2 f_equal. lia.
Qed.

Lemma format_evidence_nonempty chunks :
  chunks <> [] -> _format_evidence chunks = join nl (format_parts 1 chunks).
Proof. destruct chunks; [contradiction | reflexivity]. Qed.

End Rendering.



(** ** Judge: effect on the telemetry *)




(** ** Verification configuration *)

Section ConfigBounds.
Import Config.

Lemma field_some {A} (default : A) valid supplied v :
  field default valid supplied = Some v ->
  v = supplied_or default supplied
  /\ (supplied = None \/ valid v = true).
Proof.
  unfold field, supplied_or. destruct supplied as [x|].
  - destruct (valid x) eqn:Hv; [|discriminate].
    intros [= <-]. split; [reflexivity | right; exact Hv].
  - intros [= <-]. split; [reflexivity | left; reflexivity].
Qed.

Lemma field_rejects {A} (default : A) valid v :
  valid v = false -> field default valid (Some v) = None.
Proof. unfold field. intros ->. reflexivity. Qed.

Lemma bind_some {A B} (x : option A) (f : A -> option B) b :
  bind x f = Some b -> exists a, x = Some a /\ f a = Some b.
Proof. destruct x as [a|]; [|discriminate]. intros H. exists a. auto. Qed.

End ConfigBounds.

(** C5. The code at the failing input: with max_judge_iterations = 0 supplied
    and nothing else, the construction is accepted and yields a configuration
    whose max_judge_iterations is 0, so that accepted configurations do not
    all have max_judge_iterations >= 1; the same value 0 supplied for
    llm_semaphore_limit, for max_retries or for retrieval_top_k is
    rejected. *)
Theorem max_judge_iterations_zero_accepted :
  Config.construct (Config.only_max_judge_iterations 0)
  = Some {| Config.max_judge_iterations := 0;
            Config.grounding_confidence_threshold := 0.4%Q;
            Config.enable_adversarial_pass := false;
            Config.judge_model := "gemini-2.5-flash";
            Config.llm_semaphore_limit := 12;
            Config.max_retries := 5;
            Config.backoff_base := 2%Q;
            Config.backoff_jitter_max := 5%Q;
            Config.retrieval_top_k := 5 |}
  /\ ~ Config.max_judge_iterations_bounded
  /\ Config.construct
       {| Config.o_max_judge_iterations := None;
          Config.o_grounding_confidence_threshold := None;
          Config.o_enable_adversarial_pass := None;
          Config.o_judge_model := None;
          Config.o_llm_semaphore_limit := Some 0;
          Config.o_max_retries := None;
          Config.o_backoff_base := None;
          Config.o_backoff_jitter_max := None;
          Config.o_retrieval_top_k := None |} = None
  /\ Config.construct
       {| Config.o_max_judge_iterations := None;
          Config.o_grounding_confidence_threshold := None;
          Config.o_enable_adversarial_pass := None;
          Config.o_judge_model := None;
          Config.o_llm_semaphore_limit := None;
          Config.o_max_retries := Some 0;
          Config.o_backoff_base := None;
          Config.o_backoff_jitter_max := None;
          Config.o_retrieval_top_k := None |} = None
  /\ Config.construct
       {| Config.o_max_judge_iterations := None;
          Config.o_grounding_confidence_threshold := None;
          Config.o_enable_adversarial_pass := None;
          Config.o_judge_model := None;
          Config.o_llm_semaphore_limit := None;
          Config.o_max_retries := None;
          Config.o_backoff_base := None;
          Config.o_backoff_jitter_max := None;
          Config.o_retrieval_top_k := Some 0 |} = None.
Proof.
  split; [reflexivity|]. split; [|repeat split; reflexivity].
  intros H.
  specialize (H (Config.only_max_judge_iterations 0) _ eq_refl).
  cbn in H. lia.
Qed.

(** ** Telemetry: dump *)

Section Dump.
Import Py Telemetry.

Lemma put_same fs p n : FS.node_at (FS.put fs p n) p = Some n.
Proof.
  cbn. destruct (FS.abspath_eq_dec p p); [reflexivity | contradiction].
Qed.

Lemma put_other fs p q n :
  q <> p -> FS.node_at (FS.put fs p n) q = FS.node_at fs q.
Proof.
  intros H. cbn. destruct (FS.abspath_eq_dec q p); [contradiction | reflexivity].
Qed.

Lemma app_neq_longer {A} (done : list A) x rest :
  done ++ x :: rest <> done.
Proof.
  intros H. apply (f_equal (@List.length A)) in H.
  rewrite length_app in H. cbn in H. lia.
Qed.

(** [mkdir_from] succeeds when no regular file is in the way; it then makes
    every directory on the way exist and touches nothing else. *)
Lemma mkdir_from_ok : forall todo fs done,
  (forall k d, (k <= List.length todo)%nat ->
     FS.node_at fs (done ++ firstn k todo) <> Some (FS.File d)) ->
  exists fs',
    FS.mkdir_from fs done todo = Some fs'
    /\ FS.cwd fs' = FS.cwd fs
    /\ (forall k, (k <= List.length todo)%nat ->
          FS.node_at fs' (done ++ firstn k todo) = Some FS.Dir)
    /\ (forall q,
          (forall k, (k <= List.length todo)%nat -> q <> done ++ firstn k todo) ->
          FS.node_at fs' q = FS.node_at fs q).
Proof.
  induction todo as [|x rest IH]; intros fs done Hclear.
  - pose proof (Hclear 0%nat) as H0. cbn in H0. rewrite app_nil_r in H0.
    cbn [FS.mkdir_from].
    destruct (FS.node_at fs done) as [[d|]|] eqn:Hd.
    + exfalso. apply (H0 d); [lia | reflexivity].
    + exists fs. repeat split.
      intros k Hk. assert (k = 0)%nat as -> by (cbn in Hk; lia).
      cbn. rewrite app_nil_r. exact Hd.
    + exists (FS.put fs done FS.Dir). split; [reflexivity|].
      split; [reflexivity|]. split.
      * intros k Hk. assert (k = 0)%nat as -> by (cbn in Hk; lia).
        cbn [firstn]. rewrite app_nil_r. apply put_same.
      * intros q Hq. apply put_other.
        specialize (Hq 0%nat (Nat.le_0_l _)). cbn in Hq.
        rewrite app_nil_r in Hq. exact Hq.
  - set (fs1 := match FS.node_at fs done with
                | None => FS.put fs done FS.Dir
                | _ => fs
                end).
    assert (Hmk : FS.mkdir_from fs done (x :: rest)
                  = FS.mkdir_from fs1 (done ++ [x]) rest).
    { cbn [FS.mkdir_from]. subst fs1.
      destruct (FS.node_at fs done) as [[d|]|] eqn:Hd; try reflexivity.
      exfalso. apply (Hclear 0%nat d); [cbn; lia|].
      cbn. rewrite app_nil_r. exact Hd. }
    assert (Hcwd1 : FS.cwd fs1 = FS.cwd fs).
    { subst fs1. destruct (FS.node_at fs done) as [[d|]|]; reflexivity. }
    assert (Hdone1 : FS.node_at fs1 done = Some FS.Dir).
    { subst fs1. destruct (FS.node_at fs done) as [[d|]|] eqn:Hd.
      - exfalso. apply (Hclear 0%nat d); [cbn; lia|].
        cbn. rewrite app_nil_r. exact Hd.
      - exact Hd.
      - apply put_same. }
    assert (Hother1 : forall q, q <> done ->
              FS.node_at fs1 q = FS.node_at fs q).
    { intros q Hq. subst fs1.
      destruct (FS.node_at fs done) as [[d|]|]; try reflexivity.
      apply put_other, Hq. }
    assert (Hshift : forall k,
              (done ++ [x]) ++ firstn k rest = done ++ firstn (S k) (x :: rest)).
    { intros k. rewrite <- app_assoc. reflexivity. }
    destruct (IH fs1 (done ++ [x])) as (fs' & Hrun & Hcwd & Hdirs & Hframe).
    { intros k d Hk. rewrite Hshift, Hother1.
      - apply Hclear. cbn. lia.
      - cbn [firstn]. apply app_neq_longer. }
    exists fs'. rewrite Hmk. split; [exact Hrun|].
    split; [congruence|]. split.
    + intros [|k] Hk.
      * cbn [firstn]. rewrite app_nil_r, Hframe; [exact Hdone1|].
        intros j _. rewrite Hshift. cbn [firstn].
        intros E. symmetry in E. revert E. apply app_neq_longer.
      * rewrite <- Hshift. apply Hdirs. cbn in Hk. lia.
    + intros q Hq. rewrite Hframe.
      * apply Hother1. specialize (Hq 0%nat (Nat.le_0_l _)).
        cbn in Hq. rewrite app_nil_r in Hq. exact Hq.
      * intros k Hk. rewrite Hshift. apply Hq. cbn. lia.
Qed.

Lemma creatable_clear fs dir :
  FS.creatable fs dir = true ->
  forall k d, (k <= List.length dir)%nat ->
    FS.node_at fs ([] ++ firstn k dir) <> Some (FS.File d).
Proof.
  unfold FS.creatable. intros H k d Hk Hfile.
  rewrite forallb_forall in H.
  specialize (H k). rewrite in_seq in H.
  assert (Hneg : negb (FS.is_file fs (firstn k dir)) = true)
    by (apply H; lia).
  unfold FS.is_file in Hneg. cbn [app] in Hfile. rewrite Hfile in Hneg.
  discriminate Hneg.
Qed.

Lemma step_raw_capped t k : raw_capped t -> raw_capped (step t k).
Proof.
  unfold raw_capped.
  destruct k as [ | | | | | | | | v1 v2 a r lat e n | | | ];
    try (cbn; tauto); try (cbn; lia).
  intros H. unfold step, record_pywhyllm_pair.
  cbn [pywhyllm with_pywhyllm raw_outputs].
  destruct (Nat.ltb_spec (List.length (raw_outputs (pywhyllm t))) 200).
  - rewrite length_app. cbn [List.length]. lia.
  - exact H.
Qed.

End Dump.

Section DumpTarget.
Import Py Telemetry.

Lemma resolve_parent fs path :
  FS.has_name path = true ->
  exists name,
    FS.resolve fs path = FS.resolve fs (FS.parent path) ++ [name].
Proof.
  unfold FS.has_name, FS.resolve, FS.parent. cbn [FS.is_absolute FS.parts].
  intros H. exists (last (FS.parts path) EmptyString).
  assert (Hparts : FS.parts path
                   = removelast (FS.parts path)
                     ++ [last (FS.parts path) EmptyString]).
  { apply app_removelast_last. destruct (FS.parts path); [discriminate H|].
    discriminate. }
  destruct (FS.is_absolute path).
  - exact Hparts.
  - rewrite <- app_assoc, <- Hparts. reflexivity.
Qed.

Lemma firstn_neq_snoc {A} (dir : list A) name k :
  dir ++ [name] <> firstn k dir.
Proof.
  intros H. apply (f_equal (@List.length A)) in H.
  rewrite length_app, length_firstn in H. cbn in H. lia.
Qed.

End DumpTarget.

Section Encodable.
Import Py Telemetry.

Lemma forallb_map_comp {A B} (f : B -> bool) (g : A -> B) xs :
  forallb f (map g xs) = forallb (fun x => f (g x)) xs.
Proof.
  induction xs as [|x xs IH]; cbn; [reflexivity | rewrite IH; reflexivity].
Qed.

Lemma forallb_const_true {A} (xs : list A) : forallb (fun _ => true) xs = true.
Proof. induction xs; cbn; auto. Qed.

Lemma forallb_firstn_true {A} (f : A -> bool) n : forall xs,
  forallb f xs = true -> forallb f (firstn n xs) = true.
Proof.
  induction n as [|n IH]; intros [|x xs] H; cbn in *; try reflexivity.
  apply andb_true_iff in H as [Hx Hxs]. rewrite Hx, (IH _ Hxs). reflexivity.
Qed.

Lemma step_stored_encodable t k :
  stored_encodable t = true -> stored_encodable (step t k) = true.
Proof.
  unfold stored_encodable. intros H.
  apply andb_true_iff in H as [H Hm]. apply andb_true_iff in H as [Hr Hj].
  assert (Hr' := Hr). assert (Hj' := Hj). assert (Hm' := Hm).
  destruct k as [ | | | | | | | | v1 v2 a r lat e n | | f g gr rr it | x y z ];
    cbn [step];
    unfold stage_start, stage_end, record_llm_retry, record_llm_error,
      record_llm_fallback, record_verification_verdict, record,
      record_pywhyllm_pair;
    cbn [pywhyllm verification var_id_resolve_misses raw_outputs
         rejection_reasons with_events with_stage_starts
         with_stage_durations with_llm with_pywhyllm with_verification
         with_var_id_resolve_misses record_llm_call
         record_verification_final record_var_id_resolve_miss reset
         PyWhyLLMCounter_new VerificationCounter_new forallb andb];
    try reflexivity;
    try (destruct (List.length (raw_outputs (pywhyllm t)) <? 200)%nat);
    try destruct gr;
    rewrite ?forallb_app;
    repeat (apply andb_true_iff; split);
    try assumption; try reflexivity.
  destruct e; reflexivity.
Qed.

Lemma run_stored_encodable c ks : stored_encodable (run (init c) ks) = true.
Proof.
  apply (run_preserves (fun t => stored_encodable t = true)
           step_stored_encodable).
  reflexivity.
Qed.

(** The summary holds numbers, strings and the stored entries only. *)
Lemma summary_encodable t now :
  stored_encodable t = true -> json_encodable (summary t now) = true.
Proof.
  unfold stored_encodable. intros H.
  apply andb_true_iff in H as [H Hm]. apply andb_true_iff in H as [_ Hj].
  unfold summary, asdict_edge_dropout. cbv zeta.
  cbn [json_encodable forallb snd andb].
  rewrite !forallb_map_comp. cbn [json_encodable snd].
  rewrite !forallb_const_true.
  pose proof (forallb_firstn_true _ 50 _ Hj) as Hj50.
  pose proof (forallb_firstn_true _ 30 _ Hm) as Hm30.
  repeat (apply andb_true_iff; split); try reflexivity;
    [exact Hj50 | exact Hm30].
Qed.

(** On a state built by the recorders, [json.dump] completes exactly when
    the data of every event can be encoded. *)
Lemma payload_encodable t now :
  stored_encodable t = true ->
  json_encodable (dump_payload t now) = data_encodable t.
Proof.
  intros H. unfold dump_payload, data_encodable.
  cbn [json_encodable forallb snd].
  rewrite (summary_encodable t now H). rewrite !forallb_map_comp.
  unfold stored_encodable in H.
  apply andb_true_iff in H as [H _]. apply andb_true_iff in H as [Hr _].
  rewrite Hr. cbn [andb event_json json_encodable forallb snd].
  rewrite andb_true_r.
  induction (events t) as [|ev evs IH]; cbn [forallb]; [reflexivity|].
  rewrite IH, andb_true_r. reflexivity.
Qed.

End Encodable.




(** ** The unit tests of the repository, replayed on the model *)

Section UnitTests.
Import Py Telemetry.

(** [test_telemetry_reset]. *)
Example test_telemetry_reset :
  total_calls (llm fresh) = 0 /\ List.length (events fresh) = 0%nat.
Proof. split; reflexivity. Qed.

(** [test_telemetry_record_events]. *)
Example test_telemetry_record_events :
  let tel := record fresh "test_stage" "test_event" [("key", JStr "value")]
               sample_clock in
  List.length (events tel) = 1%nat
  /\ option_map stage (nth_error (events tel) 0) = Some "test_stage".
Proof. split; reflexivity. Qed.

(** [test_telemetry_stage_timing], with 0.05 s between the two readings. *)
Example test_telemetry_stage_timing :
  let tel := stage_start fresh "test" 10%Q sample_clock in
  let tel := stage_end tel "test" None (1005 # 100)%Q sample_clock in
  exists d, dict_get (stage_durations tel) "test" = Some d
            /\ (0.04 <= d)%Q.
Proof. eexists. split; [reflexivity | discriminate]. Qed.

(** [test_telemetry_llm_call_tracking]. *)
Example test_telemetry_llm_call_tracking :
  let tel := run fresh
               [RecordLlmCall "gemini-2.5-flash" 1000 500 250%Q 0 0;
                RecordLlmCall "gemini-2.5-pro" 2000 800 1200%Q 0 0] in
  total_calls (llm tel) = 2
  /\ dict_get (calls_by_model (llm tel)) "gemini-2.5-flash" = Some 1
  /\ dict_get (calls_by_model (llm tel)) "gemini-2.5-pro" = Some 1.
Proof. repeat split. Qed.

(** [test_telemetry_pywhyllm_tracking]. *)
Example test_telemetry_pywhyllm_tracking :
  let tel := run fresh
               [RecordPywhyllmPair "x" "y" "A" "x causes y <answer>A</answer>"
                  500%Q None false;
                RecordPywhyllmPair "a" "b" "C" "no relation <answer>C</answer>"
                  400%Q None false;
                RecordPywhyllmPair "p" "q" EmptyString "confused output"
                  300%Q None false] in
  pairs_a (pywhyllm tel) = 1
  /\ pairs_c (pywhyllm tel) = 1
  /\ pairs_parse_fail (pywhyllm tel) = 1.
Proof. repeat split. Qed.

(** [test_telemetry_dump_and_summary]: the reloaded document reports one LLM
    call. *)
Example test_telemetry_dump_and_summary :
  let tel := run fresh
               [StageStart "test" 1%Q sample_clock;
                RecordLlmCall "gemini-2.5-flash" 1000 500 250%Q 0 0;
                StageEnd "test" None 2%Q sample_clock] in
  match dump tel FS.sample_path 3%Q FS.sample_fs with
  | Some (fs, p) =>
      match FS.node_at fs p with
      | Some (FS.File doc) =>
          match json_get doc "summary" with
          | Some s =>
              match json_get s "llm_calls" with
              | Some l => json_get l "total" = Some (JInt 1)
              | None => False
              end
          | None => False
          end
          /\ In "events" (json_keys doc)
      | _ => False
      end
  | None => False
  end.
Proof. vm_compute. split; [reflexivity | auto]. Qed.

(** [test_telemetry_verification_tracking]. *)
Example test_telemetry_verification_tracking :
  let tel := run fresh
               [RecordVerificationVerdict "x" "y" 1 true (8 # 10)%Q
                  "direct_causal" false 3 1500 sample_clock;
                RecordVerificationFinal "x" "y" true None 1;
                RecordVerificationFinal "a" "b" false (Some "no_evidence") 3] in
  grounded_count (verification tel) = 1
  /\ rejected_count (verification tel) = 1.
Proof. split; reflexivity. Qed.

(** [test_normalized_count_in_telemetry]. *)
Example test_normalized_count_in_telemetry :
  let tel := run fresh
               [RecordPywhyllmPair "x" "y" "A" "<answer>A</answer>" 100%Q
                  None false;
                RecordPywhyllmPair "a" "b" "A" "<answer>A.</answer>" 100%Q
                  None true;
                RecordPywhyllmPair "p" "q" EmptyString "garbage output" 100%Q
                  None false] in
  pairs_a (pywhyllm tel) = 2
  /\ pairs_normalized (pywhyllm tel) = 1
  /\ pairs_parse_fail (pywhyllm tel) = 1.
Proof. repeat split. Qed.

End UnitTests.

(* ================================================================== *)
(** * Further properties of the code *)
(* ================================================================== *)

(** ** Telemetry: histories *)

Section Histories.
Import Py Telemetry History.

(** A quantity that every call updates like a tally is that tally. *)
Lemma run_tally (f : PipelineTelemetry -> Z) (p : call -> bool) :
  (forall t k, f (step t k) = tally p (f t) k) ->
  forall ks t n, f t = n -> f (run t ks) = fold_left (tally p) ks n.
Proof.
  intros Hstep ks. induction ks as [|k ks IH]; intros t n H; [exact H|].
  rewrite run_cons. cbn [fold_left]. apply IH.
  rewrite Hstep, H. reflexivity.
Qed.

(** [stage_starts] holds the reading of the last [stage_start]. *)
Lemma stage_starts_last_start stage ks : forall t acc,
  dict_get (stage_starts t) stage = acc ->
  dict_get (stage_starts (run t ks)) stage
  = fold_left
      (fun acc k =>
         match k with
         | Reset _ => None
         | StageStart s t0 _ => if (s =? stage)%string then Some t0 else acc
         | _ => acc
         end) ks acc.
Proof.
  induction ks as [|k ks IH]; intros t acc H; [exact H|].
  rewrite run_cons. cbn [fold_left]. apply IH.
  destruct k as [ | s t0 c | | | | | | | | | | ]; try exact H.
  - reflexivity.
  - unfold step, stage_start, record.
    cbn [stage_starts with_events with_stage_starts].
    destruct (String.eqb_spec s stage) as [->|Hne].
    + apply dict_get_set_same.
    + rewrite dict_get_set_other by exact Hne. exact H.
Qed.

Lemma step_events_count t k :
  len (events (step t k)) = tally appends_event (len (events t)) k.
Proof.
  destruct k; cbn [step tally appends_event];
    unfold stage_start, stage_end, record_llm_retry, record_llm_error,
      record_llm_fallback, record_verification_verdict, record;
    cbn [events with_events with_stage_starts with_stage_durations with_llm
         with_pywhyllm with_verification with_var_id_resolve_misses
         record_llm_call record_pywhyllm_pair record_verification_final
         record_var_id_resolve_miss reset];
    rewrite ?len_app; reflexivity.
Qed.

(** A call other than [reset] keeps the log and appends at most one event. *)
Lemma step_events_prefix t k :
  is_reset k = false ->
  exists new, events (step t k) = events t ++ new.
Proof.
  intros Hk. destruct k; try discriminate Hk; cbn [step];
    unfold stage_start, stage_end, record_llm_retry, record_llm_error,
      record_llm_fallback, record_verification_verdict, record;
    cbn [events with_events with_stage_starts with_stage_durations with_llm
         with_pywhyllm with_verification with_var_id_resolve_misses
         record_llm_call record_pywhyllm_pair record_verification_final
         record_var_id_resolve_miss];
    try (eexists; reflexivity);
    exists []; rewrite app_nil_r; reflexivity.
Qed.

Lemma run_events_prefix ks : forall t,
  forallb (fun k => negb (is_reset k)) ks = true ->
  exists new, events (run t ks) = events t ++ new.
Proof.
  induction ks as [|k ks IH]; intros t H.
  - exists []. rewrite app_nil_r. reflexivity.
  - cbn in H. apply andb_true_iff in H as [Hk Hks].
    apply negb_true_iff in Hk.
    destruct (step_events_prefix t k Hk) as (n1 & H1).
    destruct (IH (step t k) Hks) as (n2 & H2).
    exists (n1 ++ n2). rewrite run_cons, H2, H1, app_assoc. reflexivity.
Qed.

Lemma step_samples_in_step t k : samples_in_step t -> samples_in_step (step t k).
Proof.
  unfold samples_in_step. intros (Hl & Hp & Hv & Hr).
  destruct k; cbn [step];
    unfold stage_start, stage_end, record_llm_retry, record_llm_error,
      record_llm_fallback, record_verification_verdict, record;
    cbn [llm pywhyllm verification with_events with_stage_starts
         with_stage_durations with_llm with_pywhyllm with_verification
         with_var_id_resolve_misses record_llm_call record_pywhyllm_pair
         record_verification_final record_var_id_resolve_miss reset
         latency_samples_ms total_calls per_call_latency_ms total_pairs
         verdict_confidences total_judge_calls rejection_reasons
         rejected_count];
    rewrite ?len_app; try (repeat split; (assumption || reflexivity)).
  - repeat split; try assumption. rewrite Hl. reflexivity.
  - repeat split; try assumption. rewrite Hp. reflexivity.
  - repeat split; try assumption. rewrite Hv. reflexivity.
  - destruct grounded; rewrite ?len_app; repeat split; try assumption.
    rewrite Hr. reflexivity.
Qed.

Lemma step_sub_counters_bounded t k :
  sub_counters_bounded t -> sub_counters_bounded (step t k).
Proof.
  unfold sub_counters_bounded. intros (Hq & Hn).
  destruct k; cbn [step];
    unfold stage_start, stage_end, record_llm_retry, record_llm_error,
      record_llm_fallback, record_verification_verdict, record;
    cbn [llm pywhyllm with_events with_stage_starts
         with_stage_durations with_llm with_pywhyllm with_verification
         with_var_id_resolve_misses record_llm_call record_pywhyllm_pair
         record_verification_final record_var_id_resolve_miss reset
         total_quota_errors total_errors pairs_normalized total_pairs
         LLMCallCounter_new PyWhyLLMCounter_new];
    try (split; assumption); try lia.
  - destruct is_quota; lia.
  - unfold bump. destruct was_normalized; lia.
Qed.

Lemma step_raw_tracks_pairs t k : raw_tracks_pairs t -> raw_tracks_pairs (step t k).
Proof.
  unfold raw_tracks_pairs. intros H.
  destruct k as [ | | | | | | | | v1 v2 a r lat e n | | | ];
    try exact H; try reflexivity.
  unfold step, record_pywhyllm_pair.
  cbn [pywhyllm with_pywhyllm raw_outputs total_pairs].
  unfold len in *.
  destruct (Nat.ltb_spec (List.length (raw_outputs (pywhyllm t))) 200).
  - rewrite length_app. cbn [List.length]. lia.
  - lia.
Qed.

Lemma step_models_positive t k : models_positive t -> models_positive (step t k).
Proof.
  unfold models_positive. intros H.
  destruct k as [ | | | | m' pc cc lat pt ct | | | | | | | ];
    try exact H; try (intros m n; discriminate).
  intros m n. unfold step, record_llm_call.
  cbn [llm with_llm calls_by_model].
  destruct (String.eqb_spec m' m) as [->|Hne].
  - rewrite dict_get_set_same. intros [= <-].
    destruct (dict_get (calls_by_model (llm t)) m) as [x|] eqn:Hx; [|lia].
    specialize (H m x Hx). lia.
  - rewrite dict_get_set_other by exact Hne. apply H.
Qed.

Lemma step_model_count model t k :
  get_or_0 (calls_by_model (llm (step t k))) model
  = tally (is_llm_call_for model) (get_or_0 (calls_by_model (llm t)) model) k.
Proof.
  destruct k as [ | | | | m' pc cc lat pt ct | | | | | | | ];
    try reflexivity.
  unfold step, record_llm_call, get_or_0, tally, is_llm_call_for.
  cbn [llm with_llm calls_by_model].
  destruct (String.eqb_spec m' model) as [->|Hne].
  - rewrite dict_get_set_same. reflexivity.
  - rewrite dict_get_set_other by exact Hne. reflexivity.
Qed.

End Histories.

Section HistoryFacts.
Import Py Telemetry History.

Lemma last_opt_snoc {A} (xs : list A) x : last_opt (xs ++ [x]) = Some x.
Proof. unfold last_opt. rewrite rev_unit. reflexivity. Qed.

Lemma step_quota_errors t k :
  total_quota_errors (llm (step t k))
  = tally is_quota_error (total_quota_errors (llm t)) k.
Proof.
  destruct k; reflexivity.
Qed.

Lemma step_misses t k :
  len (var_id_resolve_misses (step t k))
  = tally is_record_var_id_resolve_miss (len (var_id_resolve_misses t)) k.
Proof.
  destruct k; try reflexivity.
  cbn [step record_var_id_resolve_miss var_id_resolve_misses
       with_var_id_resolve_misses tally is_record_var_id_resolve_miss].
  rewrite len_app. reflexivity.
Qed.

Lemma step_rejected t k :
  rejected_count (verification (step t k))
  = tally is_rejection (rejected_count (verification t)) k.
Proof.
  destruct k; try reflexivity.
  cbn. destruct grounded; reflexivity.
Qed.

End HistoryFacts.

(** X1. stage_end measures from the last stage_start of that stage: after any
    sequence of calls on a fresh instance, the duration it stores for the
    stage is the clock reading minus the reading of the most recent
    stage_start for that stage since the last reset (an earlier stage_start
    of the same stage is overwritten), and zero when there is none or when
    that reading was exactly 0.0; the durations of other stages are kept; and
    the appended event reports the same elapsed time rounded to three
    decimals unless extra overrides the key. *)
Theorem stage_end_measures_last_start :
  forall (c : Telemetry.clock) (ks : list Telemetry.call) (stage other : string)
         (extra : option (Py.dict Py.json)) (now : Q) (c' : Telemetry.clock),
    let t := Telemetry.run (Telemetry.init c) ks in
    let t' := Telemetry.stage_end t stage extra now c' in
    let elapsed := History.elapsed_from (History.last_start stage ks) now in
    Py.dict_get (Telemetry.stage_durations t') stage = Some elapsed
    /\ (other <> stage ->
        Py.dict_get (Telemetry.stage_durations t') other
        = Py.dict_get (Telemetry.stage_durations t) other)
    /\ (match extra with
        | Some e => Py.dict_get e "elapsed_seconds" = None
        | None => True
        end ->
        exists ev,
          History.last_opt (Telemetry.events t') = Some ev
          /\ Py.dict_get (Telemetry.data ev) "elapsed_seconds"
             = Some (Py.JFloat (Py.round elapsed 3))).
Proof.
  intros c ks stage other extra now c'. cbv zeta.
  assert (Hstart : Py.dict_get
            (Telemetry.stage_starts (Telemetry.run (Telemetry.init c) ks))
            stage = History.last_start stage ks)
    by (apply (stage_starts_last_start stage ks (Telemetry.init c) None);
        reflexivity).
  unfold Telemetry.stage_end, Telemetry.stage_elapsed. rewrite Hstart.
  fold (History.elapsed_from (History.last_start stage ks) now).
  unfold Telemetry.record.
  cbn [Telemetry.stage_durations Telemetry.events Telemetry.with_events
       Telemetry.with_stage_durations].
  split; [apply dict_get_set_same|]. split.
  - intros Hne. apply dict_get_set_other. congruence.
  - intros He. eexists. split; [apply last_opt_snoc|].
    cbn [Telemetry.data].
    destruct extra as [[|kv e]|]; try reflexivity.
    rewrite dict_get_update_other by exact He. reflexivity.
Qed.

Lemma stage_end_measures_last_start_witness :
  "verification" <> "dag_drafting"
  /\ Py.dict_get
       (Telemetry.stage_durations
          (Telemetry.stage_end
             (Telemetry.run (Telemetry.init Telemetry.sample_clock)
                [Telemetry.StageStart "dag_drafting" 3%Q Telemetry.sample_clock;
                 Telemetry.StageStart "dag_drafting" 5%Q Telemetry.sample_clock])
             "dag_drafting" None 12%Q Telemetry.sample_clock))
       "dag_drafting" = Some 7%Q.
Proof.
  split; [discriminate|].
  apply (stage_end_measures_last_start Telemetry.sample_clock
           [Telemetry.StageStart "dag_drafting" 3%Q Telemetry.sample_clock;
            Telemetry.StageStart "dag_drafting" 5%Q Telemetry.sample_clock]
           "dag_drafting" "verification" None 12%Q Telemetry.sample_clock).
Defined.

(** X2. The event log is append-only between resets: after any sequence of
    calls on a fresh instance its length is the number of event-appending
    calls (stage_start, stage_end, record, record_llm_retry,
    record_llm_error, record_llm_fallback, record_verification_verdict) made
    since the last reset, and a further sequence without reset keeps every
    recorded event in place and appends one event per such call. *)
Theorem event_log_append_only :
  forall (c : Telemetry.clock) (ks more : list Telemetry.call),
    forallb (fun k => negb (Telemetry.is_reset k)) more = true ->
    let t := Telemetry.run (Telemetry.init c) ks in
    Py.len (Telemetry.events t)
    = Telemetry.calls_since_reset History.appends_event ks
    /\ exists new,
         Telemetry.events (Telemetry.run t more) = Telemetry.events t ++ new
         /\ Py.len new = Py.len (filter History.appends_event more).
Proof.
  intros c ks more Hmore. cbv zeta. split.
  - apply (run_tally (fun t => Py.len (Telemetry.events t))
             History.appends_event step_events_count ks (Telemetry.init c) 0).
    reflexivity.
  - destruct (run_events_prefix more (Telemetry.run (Telemetry.init c) ks)
                Hmore) as (new & Hnew).
    exists new. split; [exact Hnew|].
    pose proof (run_tally (fun t => Py.len (Telemetry.events t))
                  History.appends_event step_events_count more
                  (Telemetry.run (Telemetry.init c) ks) _ eq_refl) as Hlen.
    cbv beta in Hlen.
    rewrite (tally_no_reset _ more _ Hmore), Hnew, len_app in Hlen. lia.
Qed.

Lemma event_log_append_only_witness :
  forallb (fun k => negb (Telemetry.is_reset k)) Telemetry.sample_calls = true
  /\ Py.len
       (Telemetry.events
          (Telemetry.run (Telemetry.init Telemetry.sample_clock)
             Telemetry.sample_calls))
     = Telemetry.calls_since_reset History.appends_event Telemetry.sample_calls.
Proof.
  split; [reflexivity|].
  apply (event_log_append_only Telemetry.sample_clock Telemetry.sample_calls
           Telemetry.sample_calls).
  reflexivity.
Defined.

(** X3. calls_by_model counts per model: after any sequence of calls on a
    fresh instance, the entry of a model is the number of record_llm_call
    calls made for that model since the last reset, and a model has no entry
    exactly when no such call was made. *)
Theorem calls_by_model_counts :
  forall (c : Telemetry.clock) (ks : list Telemetry.call) (model : string),
    let by_model :=
      Telemetry.calls_by_model
        (Telemetry.llm (Telemetry.run (Telemetry.init c) ks)) in
    let n := Telemetry.calls_since_reset (History.is_llm_call_for model) ks in
    History.get_or_0 by_model model = n
    /\ (Py.dict_get by_model model = None <-> n = 0).
Proof.
  intros c ks model. cbv zeta.
  assert (Hn : History.get_or_0
                 (Telemetry.calls_by_model
                    (Telemetry.llm (Telemetry.run (Telemetry.init c) ks)))
                 model
               = Telemetry.calls_since_reset (History.is_llm_call_for model) ks).
  { apply (run_tally
             (fun t => History.get_or_0
                         (Telemetry.calls_by_model (Telemetry.llm t)) model)
             (History.is_llm_call_for model) (step_model_count model) ks
             (Telemetry.init c) 0).
    reflexivity. }
  assert (Hpos : History.models_positive
                   (Telemetry.run (Telemetry.init c) ks)).
  { apply (run_preserves History.models_positive step_models_positive).
    intros m n. discriminate. }
  split; [exact Hn|]. rewrite <- Hn. unfold History.get_or_0.
  destruct (Py.dict_get _ model) as [x|] eqn:Hx.
  - specialize (Hpos model x Hx). split; [discriminate | lia].
  - split; reflexivity.
Qed.

(** X4. The sample lists run in step with their counters: after any sequence
    of calls on a fresh instance, latency_samples_ms has llm.total_calls
    entries, per_call_latency_ms has pywhyllm.total_pairs entries,
    verdict_confidences has verification.total_judge_calls entries and
    rejection_reasons has verification.rejected_count entries, the latter
    being the number of record_verification_final calls with grounded false
    since the last reset. *)
Theorem sample_lists_track_counters :
  forall (c : Telemetry.clock) (ks : list Telemetry.call),
    let t := Telemetry.run (Telemetry.init c) ks in
    Py.len (Telemetry.latency_samples_ms (Telemetry.llm t))
    = Telemetry.total_calls (Telemetry.llm t)
    /\ Py.len (Telemetry.per_call_latency_ms (Telemetry.pywhyllm t))
       = Telemetry.total_pairs (Telemetry.pywhyllm t)
    /\ Py.len (Telemetry.verdict_confidences (Telemetry.verification t))
       = Telemetry.total_judge_calls (Telemetry.verification t)
    /\ Py.len (Telemetry.rejection_reasons (Telemetry.verification t))
       = Telemetry.rejected_count (Telemetry.verification t)
    /\ Telemetry.rejected_count (Telemetry.verification t)
       = Telemetry.calls_since_reset History.is_rejection ks.
Proof.
  intros c ks. cbv zeta.
  destruct (run_preserves History.samples_in_step step_samples_in_step ks
              (Telemetry.init c)) as (Hl & Hp & Hv & Hr).
  { repeat split. }
  repeat split; try assumption.
  apply (run_tally
           (fun t => Telemetry.rejected_count (Telemetry.verification t))
           History.is_rejection step_rejected ks (Telemetry.init c) 0).
  reflexivity.
Qed.

(** X5. Sub-counters stay within their counters: after any sequence of calls
    on a fresh instance, 0 <= llm.total_quota_errors <= llm.total_errors and
    0 <= pywhyllm.pairs_normalized <= pywhyllm.total_pairs, and
    total_quota_errors is the number of record_llm_error calls with is_quota
    true since the last reset. *)
Theorem sub_counters_within_counters :
  forall (c : Telemetry.clock) (ks : list Telemetry.call),
    let t := Telemetry.run (Telemetry.init c) ks in
    (0 <= Telemetry.total_quota_errors (Telemetry.llm t)
     <= Telemetry.total_errors (Telemetry.llm t))
    /\ (0 <= Telemetry.pairs_normalized (Telemetry.pywhyllm t)
        <= Telemetry.total_pairs (Telemetry.pywhyllm t))
    /\ Telemetry.total_quota_errors (Telemetry.llm t)
       = Telemetry.calls_since_reset History.is_quota_error ks.
Proof.
  intros c ks. cbv zeta.
  destruct (run_preserves History.sub_counters_bounded
              step_sub_counters_bounded ks (Telemetry.init c)) as (Hq & Hn).
  { unfold History.sub_counters_bounded. cbn. lia. }
  split; [exact Hq|]. split; [exact Hn|].
  apply (run_tally
           (fun t => Telemetry.total_quota_errors (Telemetry.llm t))
           History.is_quota_error step_quota_errors ks (Telemetry.init c) 0).
  reflexivity.
Qed.

(** X6. The retained raw pairwise outputs are the first 200: after any
    sequence of calls on a fresh instance their number is
    min(total_pairs, 200); a record_pywhyllm_pair made when total_pairs is
    below 200 appends one entry after those retained, and one made when
    total_pairs has reached 200 leaves the retained entries untouched while
    still counting the pair. *)
Theorem raw_outputs_keep_first_200 :
  forall (c : Telemetry.clock) (ks : list Telemetry.call)
         (var1 var2 answer raw_description : string) (latency_ms : Q)
         (error : option string) (was_normalized : bool),
    let t := Telemetry.run (Telemetry.init c) ks in
    let t' := Telemetry.record_pywhyllm_pair t var1 var2 answer raw_description
                latency_ms error was_normalized in
    let raw t := Telemetry.raw_outputs (Telemetry.pywhyllm t) in
    Py.len (raw t) = Z.min (Telemetry.total_pairs (Telemetry.pywhyllm t)) 200
    /\ Telemetry.total_pairs (Telemetry.pywhyllm t')
       = Telemetry.total_pairs (Telemetry.pywhyllm t) + 1
    /\ (Telemetry.total_pairs (Telemetry.pywhyllm t) < 200 ->
        exists entry,
          raw t' = raw t ++ [entry]
          /\ Py.dict_get entry "var1" = Some (Py.JStr var1)
          /\ Py.dict_get entry "var2" = Some (Py.JStr var2)
          /\ Py.dict_get entry "answer_parsed" = Some (Py.JStr answer))
    /\ (200 <= Telemetry.total_pairs (Telemetry.pywhyllm t) -> raw t' = raw t).
Proof.
  intros c ks v1 v2 a r lat e n. cbv zeta.
  assert (Hraw : History.raw_tracks_pairs
                   (Telemetry.run (Telemetry.init c) ks)).
  { apply (run_preserves History.raw_tracks_pairs step_raw_tracks_pairs).
    reflexivity. }
  unfold History.raw_tracks_pairs, Py.len in Hraw.
  split; [exact Hraw|]. split; [reflexivity|].
  unfold Telemetry.record_pywhyllm_pair.
  cbn [Telemetry.pywhyllm Telemetry.with_pywhyllm Telemetry.raw_outputs].
  split; intros Hcount.
  - destruct (Nat.ltb_spec
                (List.length
                   (Telemetry.raw_outputs
                      (Telemetry.pywhyllm
                         (Telemetry.run (Telemetry.init c) ks)))) 200);
      [|lia].
    eexists. split; [reflexivity|]. repeat split.
  - destruct (Nat.ltb_spec
                (List.length
                   (Telemetry.raw_outputs
                      (Telemetry.pywhyllm
                         (Telemetry.run (Telemetry.init c) ks)))) 200);
      [lia | reflexivity].
Qed.

Lemma raw_outputs_keep_first_200_witness :
  200 <= Telemetry.total_pairs
           (Telemetry.pywhyllm
              (Telemetry.run (Telemetry.init Telemetry.sample_clock)
                 History.many_pairs))
  /\ Telemetry.raw_outputs
       (Telemetry.pywhyllm
          (Telemetry.record_pywhyllm_pair
             (Telemetry.run (Telemetry.init Telemetry.sample_clock)
                History.many_pairs)
             "a" "b" "A" "a causes b" 90%Q None false))
     = Telemetry.raw_outputs
         (Telemetry.pywhyllm
            (Telemetry.run (Telemetry.init Telemetry.sample_clock)
               History.many_pairs)).
Proof.
  assert (H : 200 <= Telemetry.total_pairs
                       (Telemetry.pywhyllm
                          (Telemetry.run (Telemetry.init Telemetry.sample_clock)
                             History.many_pairs)))
    by (vm_compute; discriminate).
  split; [exact H|].
  apply (raw_outputs_keep_first_200 Telemetry.sample_clock History.many_pairs
           "a" "b" "A" "a causes b" 90%Q None false).
  exact H.
Defined.

(** ** Telemetry: recorders and summary *)

Section Truncation.
Import Py History.
Local Open Scope string_scope.

Lemma str_take_len s : forall n, str_len (str_take n s) <= Z.of_nat n.
Proof.
  induction s as [|ch s IH]; intros n; cbn [str_take str_len]; [lia|].
  destruct (is_continuation ch) eqn:Hc.
  - cbn [str_len]. rewrite Hc. specialize (IH n). lia.
  - destruct n as [|n]; cbn [str_len]; [lia|].
    rewrite Hc. specialize (IH n). lia.
Qed.

Lemma str_take_prefix s : forall n, is_prefix (str_take n s) s.
Proof.
  induction s as [|ch s IH]; intros n; cbn [str_take].
  - exists EmptyString. reflexivity.
  - destruct (is_continuation ch).
    + destruct (IH n) as (rest & Hrest). exists rest. cbn.
      rewrite <- Hrest. reflexivity.
    + destruct n as [|n].
      * exists (String ch s). reflexivity.
      * destruct (IH n) as (rest & Hrest). exists rest. cbn.
        rewrite <- Hrest. reflexivity.
Qed.

Lemma str_len_nonneg s : 0 <= str_len s.
Proof.
  induction s as [|ch s IH]; cbn [str_len]; [lia|].
  destruct (is_continuation ch); lia.
Qed.

Lemma str_take_short s : forall n,
  str_len s <= Z.of_nat n -> str_take n s = s.
Proof.
  induction s as [|ch s IH]; intros n H; cbn [str_take]; [reflexivity|].
  cbn [str_len] in H. pose proof (str_len_nonneg s) as Hs.
  destruct (is_continuation ch).
  - rewrite IH by lia. reflexivity.
  - destruct n as [|n]; [lia|]. rewrite IH by lia. reflexivity.
Qed.

Lemma str_take_truncated n s : truncated n s (str_take n s).
Proof.
  split; [apply str_take_prefix|].
  split; [apply str_take_len | apply str_take_short].
Qed.

End Truncation.

(** X7. record_pywhyllm_pair files each pair under exactly one class: a
    non-empty error counts as an exception whatever the answer; otherwise the
    answer A, B or C (exact match) selects its counter and anything else is a
    parse failure.  total_pairs rises by one, and pairs_normalized rises
    exactly when was_normalized is set, independently of the class. *)
Theorem pair_filed_under_one_class :
  forall (t : Telemetry.PipelineTelemetry)
         (var1 var2 answer raw_description : string) (latency_ms : Q)
         (error : option string) (was_normalized : bool),
    let p := Telemetry.pywhyllm t in
    let p' :=
      Telemetry.pywhyllm
        (Telemetry.record_pywhyllm_pair t var1 var2 answer raw_description
           latency_ms error was_normalized) in
    let failed := Py.opt_str_truthy error in
    let is_a := (answer =? "A")%string in
    let is_b := (answer =? "B")%string in
    let is_c := (answer =? "C")%string in
    let one (b : bool) := if b then 1 else 0 in
    Telemetry.total_pairs p' = Telemetry.total_pairs p + 1
    /\ Telemetry.pairs_exception p' = Telemetry.pairs_exception p + one failed
    /\ Telemetry.pairs_a p' = Telemetry.pairs_a p + one (negb failed && is_a)
    /\ Telemetry.pairs_b p'
       = Telemetry.pairs_b p + one (negb failed && negb is_a && is_b)
    /\ Telemetry.pairs_c p'
       = Telemetry.pairs_c p
         + one (negb failed && negb is_a && negb is_b && is_c)
    /\ Telemetry.pairs_parse_fail p'
       = Telemetry.pairs_parse_fail p
         + one (negb failed && negb is_a && negb is_b && negb is_c)
    /\ Telemetry.pairs_normalized p'
       = Telemetry.pairs_normalized p + one was_normalized
    /\ (Telemetry.pairs_exception p' + Telemetry.pairs_a p'
        + Telemetry.pairs_b p' + Telemetry.pairs_c p'
        + Telemetry.pairs_parse_fail p')
       = (Telemetry.pairs_exception p + Telemetry.pairs_a p
          + Telemetry.pairs_b p + Telemetry.pairs_c p
          + Telemetry.pairs_parse_fail p) + 1.
Proof.
  intros t v1 v2 a r lat e n. cbv zeta.
  unfold Telemetry.record_pywhyllm_pair, Telemetry.classify_pair.
  cbn [Telemetry.pywhyllm Telemetry.with_pywhyllm Telemetry.total_pairs
       Telemetry.pairs_exception Telemetry.pairs_a Telemetry.pairs_b
       Telemetry.pairs_c Telemetry.pairs_parse_fail
       Telemetry.pairs_normalized].
  destruct (Py.opt_str_truthy e), (a =? "A")%string, (a =? "B")%string,
    (a =? "C")%string, n; cbn; repeat split; lia.
Qed.

(** X8. The recorders bound the free text they keep: the event appended by
    record_llm_retry carries a prefix of the error of at most 300 characters,
    the event appended by record_llm_error a prefix of at most 500
    characters, and a raw output retained by record_pywhyllm_pair a prefix of
    raw_description of at most 500 characters; a text within the bound is
    kept whole. *)
Theorem recorders_truncate_text :
  forall (t : Telemetry.PipelineTelemetry) (model error : string)
         (attempt : Z) (is_quota : bool) (c : Telemetry.clock)
         (var1 var2 answer raw_description : string) (latency_ms : Q)
         (pair_error : option string) (was_normalized : bool),
    (exists ev kept,
       History.last_opt
         (Telemetry.events (Telemetry.record_llm_retry t model attempt error c))
       = Some ev
       /\ Telemetry.stage ev = "llm" /\ Telemetry.event ev = "retry"
       /\ Py.dict_get (Telemetry.data ev) "error" = Some (Py.JStr kept)
       /\ History.truncated 300 error kept)
    /\ (exists ev kept,
          History.last_opt
            (Telemetry.events
               (Telemetry.record_llm_error t model error is_quota c))
          = Some ev
          /\ Telemetry.stage ev = "llm" /\ Telemetry.event ev = "error"
          /\ Py.dict_get (Telemetry.data ev) "error" = Some (Py.JStr kept)
          /\ Py.dict_get (Telemetry.data ev) "is_quota"
             = Some (Py.JBool is_quota)
          /\ History.truncated 500 error kept)
    /\ ((List.length (Telemetry.raw_outputs (Telemetry.pywhyllm t)) < 200)%nat ->
        exists entry kept,
          History.last_opt
            (Telemetry.raw_outputs
               (Telemetry.pywhyllm
                  (Telemetry.record_pywhyllm_pair t var1 var2 answer
                     raw_description latency_ms pair_error was_normalized)))
          = Some entry
          /\ Py.dict_get entry "raw_description" = Some (Py.JStr kept)
          /\ History.truncated 500 raw_description kept).
Proof.
  intros t model error attempt is_quota c v1 v2 a r lat pe n.
  split; [|split].
  - unfold Telemetry.record_llm_retry, Telemetry.record.
    cbn [Telemetry.events Telemetry.with_events Telemetry.with_llm].
    do 2 eexists. split; [apply last_opt_snoc|].
    cbn [Telemetry.stage Telemetry.event Telemetry.data].
    split; [reflexivity|]. split; [reflexivity|]. split; [reflexivity|].
    apply str_take_truncated.
  - unfold Telemetry.record_llm_error, Telemetry.record.
    cbn [Telemetry.events Telemetry.with_events Telemetry.with_llm].
    do 2 eexists. split; [apply last_opt_snoc|].
    cbn [Telemetry.stage Telemetry.event Telemetry.data].
    split; [reflexivity|]. split; [reflexivity|]. split; [reflexivity|].
    split; [reflexivity|].
    apply str_take_truncated.
  - intros Hroom. unfold Telemetry.record_pywhyllm_pair.
    cbn [Telemetry.pywhyllm Telemetry.with_pywhyllm Telemetry.raw_outputs].
    destruct (Nat.ltb_spec
                (List.length (Telemetry.raw_outputs (Telemetry.pywhyllm t)))
                200); [|lia].
    do 2 eexists. split; [apply last_opt_snoc|].
    split; [reflexivity|].
    unfold Py.str_truthy.
    destruct (String.eqb_spec r EmptyString) as [->|Hne]; cbn [negb].
    + split; [exists EmptyString; reflexivity|].
      split; [cbn; lia | reflexivity].
    + apply str_take_truncated.
Qed.

Lemma recorders_truncate_text_witness :
  (List.length
     (Telemetry.raw_outputs
        (Telemetry.pywhyllm (Telemetry.init Telemetry.sample_clock))) < 200)%nat
  /\ exists entry kept,
       History.last_opt
         (Telemetry.raw_outputs
            (Telemetry.pywhyllm
               (Telemetry.record_pywhyllm_pair
                  (Telemetry.init Telemetry.sample_clock) "x" "y" "A"
                  "x causes y" 500%Q None false)))
       = Some entry
       /\ Py.dict_get entry "raw_description" = Some (Py.JStr kept)
       /\ History.truncated 500 "x causes y" kept.
Proof.
  assert (H : (List.length
                 (Telemetry.raw_outputs
                    (Telemetry.pywhyllm
                       (Telemetry.init Telemetry.sample_clock))) < 200)%nat)
    by (cbn; lia).
  split; [exact H|].
  apply (recorders_truncate_text (Telemetry.init Telemetry.sample_clock)
           "gemini-2.5-flash" "503" 1 false Telemetry.sample_clock
           "x" "y" "A" "x causes y" 500%Q None false).
  exact H.
Defined.

Section SummaryFacts.
Import Py Telemetry History.

Lemma len_firstn {A} (n : nat) (xs : list A) :
  len (firstn n xs) = Z.min (len xs) (Z.of_nat n).
Proof. unfold len. rewrite length_firstn. lia. Qed.

Lemma len_map {A B} (f : A -> B) (xs : list A) : len (map f xs) = len xs.
Proof. unfold len. rewrite length_map. reflexivity. Qed.

Lemma len_zero_nil {A} (xs : list A) : len xs = 0 -> xs = [].
Proof. destruct xs; [reflexivity|]. unfold len. cbn. lia. Qed.

(** With samples, the guard [max(len(xs), 1)] is the number of samples. *)
Lemma average_samples xs n :
  len xs = n -> 0 < n -> average xs = (sum xs / inject_Z n)%Q.
Proof.
  intros Hlen Hn. unfold average. rewrite Hlen.
  replace (Z.max n 1) with n by lia. reflexivity.
Qed.

End SummaryFacts.

(** X9. summary reports capped lists beside full counts: after any sequence
    of calls on a fresh instance, verification.rejection_reasons in the
    summary holds min(rejected, 50) entries while verification.rejected is
    the full rejected_count, and var_id_resolve_misses holds min(n, 30)
    entries, n being the number of record_var_id_resolve_miss calls since the
    last reset. *)
Theorem summary_caps_lists :
  forall (c : Telemetry.clock) (ks : list Telemetry.call) (now : Q),
    let t := Telemetry.run (Telemetry.init c) ks in
    let s := Telemetry.summary t now in
    let rejected := Telemetry.rejected_count (Telemetry.verification t) in
    History.json_get2 s "verification" "rejected" = Some (Py.JInt rejected)
    /\ History.json_list_len
         (History.json_get2 s "verification" "rejection_reasons")
       = Some (Z.min rejected 50)
    /\ History.json_list_len (Py.json_get s "var_id_resolve_misses")
       = Some (Z.min
                 (Telemetry.calls_since_reset
                    History.is_record_var_id_resolve_miss ks)
                 30).
Proof.
  intros c ks now. cbv zeta.
  destruct (run_preserves History.samples_in_step step_samples_in_step ks
              (Telemetry.init c)) as (_ & _ & _ & Hr).
  { repeat split. }
  pose proof (run_tally
                (fun t => Py.len (Telemetry.var_id_resolve_misses t))
                History.is_record_var_id_resolve_miss step_misses ks
                (Telemetry.init c) 0 eq_refl) as Hm.
  cbv beta in Hm. fold (Telemetry.calls_since_reset
                          History.is_record_var_id_resolve_miss ks) in Hm.
  split; [reflexivity|]. split.
  - change (History.json_get2
              (Telemetry.summary (Telemetry.run (Telemetry.init c) ks) now)
              "verification" "rejection_reasons")
      with (Some (Py.JList
                    (map Py.JDict
                       (firstn 50
                          (Telemetry.rejection_reasons
                             (Telemetry.verification
                                (Telemetry.run (Telemetry.init c) ks))))))).
    cbn [History.json_list_len].
    rewrite len_map, len_firstn. do 2 f_equal. exact Hr.
  - change (Py.json_get
              (Telemetry.summary (Telemetry.run (Telemetry.init c) ks) now)
              "var_id_resolve_misses")
      with (Some (Py.JList
                    (map Py.JDict
                       (firstn 30
                          (Telemetry.var_id_resolve_misses
                             (Telemetry.run (Telemetry.init c) ks)))))).
    cbn [History.json_list_len].
    rewrite len_map, len_firstn. do 2 f_equal. exact Hm.
Qed.

(** X10. The averages of summary divide by the matching counter and are safe
    on an empty run: after any sequence of calls on a fresh instance,
    llm_calls.avg_latency_ms is 0.0 when llm.total_calls is 0 and otherwise
    the sum of the latency samples divided by total_calls, rounded to one
    decimal; likewise pywhyllm_pairwise.avg_latency_ms with total_pairs. *)
Theorem summary_averages :
  forall (c : Telemetry.clock) (ks : list Telemetry.call) (now : Q),
    let t := Telemetry.run (Telemetry.init c) ks in
    let s := Telemetry.summary t now in
    let calls := Telemetry.total_calls (Telemetry.llm t) in
    let pairs := Telemetry.total_pairs (Telemetry.pywhyllm t) in
    (calls = 0 ->
     History.json_get2 s "llm_calls" "avg_latency_ms" = Some (Py.JFloat 0%Q))
    /\ (0 < calls ->
        History.json_get2 s "llm_calls" "avg_latency_ms"
        = Some (Py.JFloat
                  (Py.round
                     (Py.sum (Telemetry.latency_samples_ms (Telemetry.llm t))
                      / inject_Z calls) 1)))
    /\ (pairs = 0 ->
        History.json_get2 s "pywhyllm_pairwise" "avg_latency_ms"
        = Some (Py.JFloat 0%Q))
    /\ (0 < pairs ->
        History.json_get2 s "pywhyllm_pairwise" "avg_latency_ms"
        = Some (Py.JFloat
                  (Py.round
                     (Py.sum
                        (Telemetry.per_call_latency_ms (Telemetry.pywhyllm t))
                      / inject_Z pairs) 1))).
Proof.
  intros c ks now. cbv zeta.
  destruct (run_preserves History.samples_in_step step_samples_in_step ks
              (Telemetry.init c)) as (Hl & Hp & _ & _).
  { repeat split. }
  assert (Hllm : History.json_get2
                   (Telemetry.summary (Telemetry.run (Telemetry.init c) ks) now)
                   "llm_calls" "avg_latency_ms"
                 = Some (Py.JFloat
                           (Py.round
                              (Telemetry.average
                                 (Telemetry.latency_samples_ms
                                    (Telemetry.llm
                                       (Telemetry.run (Telemetry.init c) ks))))
                              1))) by reflexivity.
  assert (Hpw : History.json_get2
                  (Telemetry.summary (Telemetry.run (Telemetry.init c) ks) now)
                  "pywhyllm_pairwise" "avg_latency_ms"
                = Some (Py.JFloat
                          (Py.round
                             (Telemetry.average
                                (Telemetry.per_call_latency_ms
                                   (Telemetry.pywhyllm
                                      (Telemetry.run (Telemetry.init c) ks))))
                             1))) by reflexivity.
  rewrite Hllm, Hpw. repeat split; intros H.
  - rewrite H in Hl. rewrite (len_zero_nil _ Hl). reflexivity.
  - rewrite (average_samples _ _ Hl H). reflexivity.
  - rewrite H in Hp. rewrite (len_zero_nil _ Hp). reflexivity.
  - rewrite (average_samples _ _ Hp H). reflexivity.
Qed.

Lemma summary_averages_witness :
  0 < Telemetry.total_calls
        (Telemetry.llm
           (Telemetry.run (Telemetry.init Telemetry.sample_clock)
              [Telemetry.RecordLlmCall "gemini-2.5-flash" 1000 500 250%Q 0 0;
               Telemetry.RecordLlmCall "gemini-2.5-pro" 2000 800 1201%Q 0 0]))
  /\ History.json_get2
       (Telemetry.summary
          (Telemetry.run (Telemetry.init Telemetry.sample_clock)
             [Telemetry.RecordLlmCall "gemini-2.5-flash" 1000 500 250%Q 0 0;
              Telemetry.RecordLlmCall "gemini-2.5-pro" 2000 800 1201%Q 0 0])
          9%Q)
       "llm_calls" "avg_latency_ms"
     = Some (Py.JFloat (Py.round ((250 + 1201) / inject_Z 2) 1)).
Proof.
  split; [reflexivity|].
  apply (summary_averages Telemetry.sample_clock
           [Telemetry.RecordLlmCall "gemini-2.5-flash" 1000 500 250%Q 0 0;
            Telemetry.RecordLlmCall "gemini-2.5-pro" 2000 800 1201%Q 0 0]
           9%Q).
  reflexivity.
Defined.

(** ** Telemetry: dump and the singleton *)

Section DumpOutcome.
Import Py Telemetry.

Lemma forallb_false_witness {A} (f : A -> bool) xs :
  forallb f xs = false -> exists x, In x xs /\ f x = false.
Proof.
  induction xs as [|x xs IH]; cbn; [discriminate|].
  destruct (f x) eqn:Hx; cbn.
  - intros H. destruct (IH H) as (y & Hy & Hf). exists y. auto.
  - intros _. exists x. auto.
Qed.

(** A regular file on the way makes [mkdir_from] fail. *)
Lemma mkdir_from_blocked : forall todo fs done k d,
  (k <= List.length todo)%nat ->
  FS.node_at fs (done ++ firstn k todo) = Some (FS.File d) ->
  FS.mkdir_from fs done todo = None.
Proof.
  induction todo as [|x rest IH]; intros fs done k d Hk Hfile.
  - assert (k = 0)%nat as -> by (cbn in Hk; lia).
    cbn in Hfile. rewrite app_nil_r in Hfile.
    cbn [FS.mkdir_from]. rewrite Hfile. reflexivity.
  - cbn [FS.mkdir_from].
    destruct (FS.node_at fs done) as [[d0|]|] eqn:Hd; [reflexivity| |].
    + destruct k as [|k].
      * cbn in Hfile. rewrite app_nil_r in Hfile. congruence.
      * apply (IH fs (done ++ [x]) k d); [cbn in Hk; lia|].
        rewrite <- app_assoc. exact Hfile.
    + destruct k as [|k].
      * cbn in Hfile. rewrite app_nil_r in Hfile. congruence.
      * apply (IH (FS.put fs done FS.Dir) (done ++ [x]) k d);
          [cbn in Hk; lia|].
        rewrite <- app_assoc, put_other; [exact Hfile|].
        cbn [firstn app]. apply app_neq_longer.
Qed.

Lemma not_creatable_blocked fs dir :
  FS.creatable fs dir = false -> FS.mkdir_from fs [] dir = None.
Proof.
  unfold FS.creatable. intros H.
  destruct (forallb_false_witness _ _ H) as (k & Hin & Hk).
  apply in_seq in Hin. apply negb_false_iff in Hk.
  unfold FS.is_file in Hk.
  destruct (FS.node_at fs (firstn k dir)) as [[d|]|] eqn:Hn;
    try discriminate Hk.
  apply (mkdir_from_blocked dir fs [] k d); [lia | exact Hn].
Qed.

(** What [dump] does when the file system lets it. *)
Lemma dump_succeeds t path now fs :
  FS.has_name path = true ->
  FS.creatable fs (FS.resolve fs (FS.parent path)) = true ->
  FS.is_dir fs (FS.resolve fs path) = false ->
  json_encodable (dump_payload t now) = true ->
  exists fs',
    dump t path now fs = Some (fs', FS.resolve fs path)
    /\ FS.cwd fs' = FS.cwd fs
    /\ FS.node_at fs' (FS.resolve fs path) = Some (FS.File (dump_payload t now))
    /\ (forall k, FS.node_at fs' (firstn k (FS.resolve fs (FS.parent path)))
                  = Some FS.Dir)
    /\ (forall q,
          q <> FS.resolve fs path ->
          (forall k, q <> firstn k (FS.resolve fs (FS.parent path))) ->
          FS.node_at fs' q = FS.node_at fs q).
Proof.
  intros Hname Hclear Htarget Henc.
  destruct (mkdir_from_ok (FS.resolve fs (FS.parent path)) fs []
              (creatable_clear fs _ Hclear))
    as (fs1 & Hmk & Hcwd & Hdirs & Hframe).
  cbn [app] in Hdirs, Hframe.
  destruct (resolve_parent fs path Hname) as (name & Hres).
  assert (Hres1 : FS.resolve fs1 path = FS.resolve fs path)
    by (unfold FS.resolve; rewrite Hcwd; reflexivity).
  assert (Hall : forall k,
            FS.node_at fs1 (firstn k (FS.resolve fs (FS.parent path)))
            = Some FS.Dir).
  { intros k.
    destruct (Nat.le_gt_cases k
                (List.length (FS.resolve fs (FS.parent path)))) as [Hk|Hk].
    - apply Hdirs, Hk.
    - rewrite firstn_all2 by lia.
      rewrite <- (firstn_all (FS.resolve fs (FS.parent path))).
      apply Hdirs. lia. }
  assert (Hkeep : FS.node_at fs1 (FS.resolve fs path)
                  = FS.node_at fs (FS.resolve fs path)).
  { apply Hframe. intros k _. rewrite Hres. apply firstn_neq_snoc. }
  assert (Hrm : removelast (FS.resolve fs path)
                = FS.resolve fs (FS.parent path))
    by (rewrite Hres; apply removelast_last).
  assert (Hdir1 : FS.node_at fs1 (FS.resolve fs (FS.parent path))
                  = Some FS.Dir).
  { rewrite <- (firstn_all (FS.resolve fs (FS.parent path))) at 1.
    apply Hall. }
  exists (FS.put fs1 (FS.resolve fs path) (FS.File (dump_payload t now))).
  split.
  - unfold dump, FS.mkdir_parents. rewrite Hmk, Hres1.
    unfold FS.write_file. rewrite Hkeep, Hrm, Hdir1, Henc.
    unfold FS.is_dir in Htarget.
    destruct (FS.node_at fs (FS.resolve fs path)) as [[d|]|];
      [reflexivity | discriminate Htarget | reflexivity].
  - split; [exact Hcwd|]. split; [apply put_same|]. split.
    + intros k. rewrite put_other; [apply Hall|].
      intros E. symmetry in E. revert E. rewrite Hres.
      apply firstn_neq_snoc.
    + intros q Hq Hanc. rewrite put_other by exact Hq.
      apply Hframe. intros k _. apply Hanc.
Qed.

(** A path without a name resolves to its own parent. *)
Lemma nameless_is_own_parent fs path :
  FS.has_name path = false ->
  FS.resolve fs (FS.parent path) = FS.resolve fs path.
Proof.
  unfold FS.has_name, FS.resolve, FS.parent.
  cbn [FS.is_absolute FS.parts].
  destruct (FS.parts path); [reflexivity | discriminate].
Qed.

(** What [dump] does when the file system refuses or the document cannot
    be encoded. *)
Lemma dump_refused t path now fs :
  FS.has_name path = false
  \/ FS.creatable fs (FS.resolve fs (FS.parent path)) = false
  \/ FS.is_dir fs (FS.resolve fs path) = true
  \/ json_encodable (dump_payload t now) = false ->
  dump t path now fs = None.
Proof.
  intros H. unfold dump, FS.mkdir_parents.
  destruct (json_encodable (dump_payload t now)) eqn:Henc.
  2:{ destruct (FS.mkdir_from fs [] (FS.resolve fs (FS.parent path)))
        as [fs1|]; [|reflexivity].
      destruct (FS.write_file fs1 (FS.resolve fs1 path) (dump_payload t now));
        reflexivity. }
  destruct (FS.creatable fs (FS.resolve fs (FS.parent path))) eqn:Hclear.
  2:{ rewrite (not_creatable_blocked fs _ Hclear). reflexivity. }
  destruct (mkdir_from_ok (FS.resolve fs (FS.parent path)) fs []
              (creatable_clear fs _ Hclear))
    as (fs1 & Hmk & Hcwd & Hdirs & Hframe).
  cbn [app] in Hdirs, Hframe. rewrite Hmk.
  assert (Hres1 : FS.resolve fs1 path = FS.resolve fs path)
    by (unfold FS.resolve; rewrite Hcwd; reflexivity).
  rewrite Hres1.
  assert (Hdir : FS.node_at fs1 (FS.resolve fs path) = Some FS.Dir).
  { destruct (FS.has_name path) eqn:Hname.
    - destruct H as [H|[H|[H|H]]]; try discriminate H.
      destruct (resolve_parent fs path Hname) as (name & Hres).
      rewrite Hframe.
      + unfold FS.is_dir in H.
        destruct (FS.node_at fs (FS.resolve fs path)) as [[d|]|];
          try discriminate H. reflexivity.
      + intros k _. rewrite Hres. apply firstn_neq_snoc.
    - rewrite <- (nameless_is_own_parent fs path Hname).
      rewrite <- (firstn_all (FS.resolve fs (FS.parent path))).
      apply Hdirs. lia. }
  unfold FS.write_file. rewrite Hdir. reflexivity.
Qed.

End DumpOutcome.



(** X12. A successful dump touches only its target and the ancestors of the
    target: it returns the resolved path, leaves the working directory as it
    was, replaces whatever file stood at the target by the new document,
    leaves every ancestor of the target a directory, and changes no other
    path of the file system. *)
Theorem dump_touches_only_its_target :
  forall (t : Telemetry.PipelineTelemetry) (path : FS.Path) (now : Q)
         (fs fs' : FS.filesystem) (result : FS.abspath),
    Telemetry.dump t path now fs = Some (fs', result) ->
    result = FS.resolve fs path
    /\ FS.cwd fs' = FS.cwd fs
    /\ FS.node_at fs' result = Some (FS.File (Telemetry.dump_payload t now))
    /\ (forall k,
          FS.node_at fs' (firstn k (FS.resolve fs (FS.parent path)))
          = Some FS.Dir)
    /\ (forall q,
          q <> result ->
          (forall k, q <> firstn k (FS.resolve fs (FS.parent path))) ->
          FS.node_at fs' q = FS.node_at fs q).
Proof.
  intros t path now fs fs' result Hdump.
  destruct (FS.has_name path) eqn:Hname;
    [|rewrite dump_refused in Hdump by tauto; discriminate Hdump].
  destruct (FS.creatable fs (FS.resolve fs (FS.parent path))) eqn:Hclear;
    [|rewrite dump_refused in Hdump by tauto; discriminate Hdump].
  destruct (FS.is_dir fs (FS.resolve fs path)) eqn:Hdir;
    [rewrite dump_refused in Hdump by tauto; discriminate Hdump|].
  destruct (Py.json_encodable (Telemetry.dump_payload t now)) eqn:Henc;
    [|rewrite dump_refused in Hdump by tauto; discriminate Hdump].
  destruct (dump_succeeds t path now fs Hname Hclear Hdir Henc)
    as (fs2 & H & Hcwd & Hfile & Hdirs & Hframe).
  rewrite H in Hdump. injection Hdump as <- <-.
  repeat split; assumption.
Qed.

Lemma dump_touches_only_its_target_witness :
  match Telemetry.dump (Telemetry.init Telemetry.sample_clock) FS.sample_path
          3%Q FS.sample_fs with
  | Some (fs', result) =>
      result = ["srv"; "causeway"; "diagnostic_output"; "telemetry.json"]
      /\ FS.cwd fs' = ["srv"; "causeway"]
  | None => False
  end.
Proof.
  destruct (Telemetry.dump (Telemetry.init Telemetry.sample_clock)
              FS.sample_path 3%Q FS.sample_fs) as [[fs' result]|] eqn:E.
  - destruct (dump_touches_only_its_target _ _ _ _ _ _ E) as (Hr & Hc & _).
    split; [exact Hr | exact Hc].
  - vm_compute in E. discriminate E.
Defined.

(** X13. get_telemetry is a singleton accessor: the first call constructs a
    fresh instance and stores it; every later call, whatever the clock,
    returns the stored instance as it is, without resetting it. *)
Theorem get_telemetry_is_singleton :
  forall (instance : option Telemetry.PipelineTelemetry)
         (c c' : Telemetry.clock) (ks : list Telemetry.call),
    let first := Telemetry.get_telemetry instance c in
    let used := option_map (fun t => Telemetry.run t ks) (snd first) in
    snd first = Some (fst first)
    /\ (instance = None -> fst first = Telemetry.init c)
    /\ (forall t, instance = Some t -> fst first = t)
    /\ Telemetry.get_telemetry (snd first) c' = first
    /\ Telemetry.get_telemetry used c'
       = (Telemetry.run (fst first) ks, used).
Proof.
  intros instance c c' ks. cbv zeta.
  destruct instance as [t|]; cbn; repeat split; congruence.
Qed.

Lemma get_telemetry_is_singleton_witness :
  (None : option Telemetry.PipelineTelemetry) = None
  /\ fst (Telemetry.get_telemetry None Telemetry.sample_clock)
     = Telemetry.init Telemetry.sample_clock.
Proof.
  split; [reflexivity|].
  destruct (get_telemetry_is_singleton None Telemetry.sample_clock
              Telemetry.sample_clock []) as (_ & Hfresh & _).
  apply Hfresh. reflexivity.
Defined.

(** ** Judge: failures, the singleton and the prompts *)





(** X16. The location shown for a chunk drops what is missing: a page number
    that is absent or 0 and a section name that is absent or empty are left
    out; with both present the descriptor is p.N, section, with one of them
    it is that one alone, and with neither it is unknown location. *)
Theorem chunk_location_descriptor :
  forall (chunk : Judge.EvidenceBundle),
    Judge.chunk_loc chunk
    = match Failing.shown_page chunk, Failing.shown_section chunk with
      | Some n, Some s => ("p." ++ Py.str_of_int n ++ ", " ++ s)%string
      | Some n, None => ("p." ++ Py.str_of_int n)%string
      | None, Some s => s
      | None, None => "unknown location"
      end.
Proof.
  intros chunk.
  unfold Judge.chunk_loc, Judge.chunk_loc_parts, Failing.shown_page,
    Failing.shown_section.
  destruct (Judge.page_number (Judge.location chunk)) as [n|];
    destruct (Judge.section_name (Judge.location chunk)) as [s|];
    try destruct (Py.int_truthy n); try destruct (Py.str_truthy s);
    reflexivity.
Qed.

Section PromptFacts.
Import Py Judge.
Local Open Scope string_scope.

Lemma infix_head3 a b c rest : is_infix (a ++ b ++ c) (a ++ b ++ c ++ rest).
Proof.
  exists EmptyString, rest. cbn [append]. rewrite !append_assoc. reflexivity.
Qed.

End PromptFacts.


(** ** Verification configuration: acceptance and caching *)

Section ConfigFacts.
Import Config Cache.

Lemma field_unconstrained {A} (default : A) supplied :
  field default unconstrained supplied = Some (supplied_or default supplied).
Proof. destruct supplied; reflexivity. Qed.

Lemma field_checked {A} (default : A) valid supplied :
  field default valid supplied
  = if match supplied with Some v => valid v | None => true end
    then Some (supplied_or default supplied) else None.
Proof. destruct supplied as [v|]; [|reflexivity]. reflexivity. Qed.

End ConfigFacts.

(** X18. Construction of the verification configuration is accepted exactly
    when every supplied constrained value is within its bound (threshold in
    [0, 1]; llm_semaphore_limit, max_retries and retrieval_top_k at least 1);
    what is supplied for max_judge_iterations, enable_adversarial_pass,
    judge_model, backoff_base and backoff_jitter_max never causes a
    rejection. *)
Theorem construct_accepts_exactly_within_bounds :
  forall (o : Config.overrides),
    (exists cfg, Config.construct o = Some cfg)
    <-> Cache.within_bounds o = true.
Proof.
  intros o. unfold Config.construct, Cache.within_bounds.
  rewrite !field_unconstrained.
  rewrite (field_checked _ (Config.ge_le_float 0 1)).
  rewrite !(field_checked _ (Config.ge_int 1)).
  cbn [Config.bind].
  destruct (match Config.o_grounding_confidence_threshold o with
            | Some v => Config.ge_le_float 0 1 v
            | None => true
            end);
    destruct (match Config.o_llm_semaphore_limit o with
              | Some v => Config.ge_int 1 v
              | None => true
              end);
    destruct (match Config.o_max_retries o with
              | Some v => Config.ge_int 1 v
              | None => true
              end);
    destruct (match Config.o_retrieval_top_k o with
              | Some v => Config.ge_int 1 v
              | None => true
              end);
    cbn; split; intros H; try reflexivity; try discriminate H;
    try (eexists; reflexivity);
    destruct H as (cfg & H); discriminate H.
Qed.

(** X22. Constructed with no overrides, the verification configuration has
    max_judge_iterations = 2, grounding_confidence_threshold = 0.4,
    enable_adversarial_pass = false, judge_model = gemini-2.5-flash,
    llm_semaphore_limit = 12, max_retries = 5, backoff_base = 2.0,
    backoff_jitter_max = 5.0 and retrieval_top_k = 5.  Every accepted
    configuration carries the supplied value of each field (the default where
    none is supplied) and satisfies grounding_confidence_threshold in [0, 1],
    llm_semaphore_limit >= 1, max_retries >= 1 and retrieval_top_k >= 1. *)
Theorem config_defaults_and_bounds :
  forall (o : Config.overrides) (cfg : Config.VerificationConfig),
    Config.construct o = Some cfg ->
    Config.construct Config.no_overrides
    = Some {| Config.max_judge_iterations := 2;
              Config.grounding_confidence_threshold := 0.4%Q;
              Config.enable_adversarial_pass := false;
              Config.judge_model := "gemini-2.5-flash";
              Config.llm_semaphore_limit := 12;
              Config.max_retries := 5;
              Config.backoff_base := 2%Q;
              Config.backoff_jitter_max := 5%Q;
              Config.retrieval_top_k := 5 |}
    /\ ((0 <= Config.grounding_confidence_threshold cfg)%Q
        /\ (Config.grounding_confidence_threshold cfg <= 1)%Q
        /\ 1 <= Config.llm_semaphore_limit cfg
        /\ 1 <= Config.max_retries cfg
        /\ 1 <= Config.retrieval_top_k cfg)
    /\ (Config.max_judge_iterations cfg
        = Config.supplied_or 2 (Config.o_max_judge_iterations o)
        /\ Config.grounding_confidence_threshold cfg
           = Config.supplied_or 0.4%Q
               (Config.o_grounding_confidence_threshold o)
        /\ Config.enable_adversarial_pass cfg
           = Config.supplied_or false (Config.o_enable_adversarial_pass o)
        /\ Config.judge_model cfg
           = Config.supplied_or "gemini-2.5-flash" (Config.o_judge_model o)
        /\ Config.llm_semaphore_limit cfg
           = Config.supplied_or 12 (Config.o_llm_semaphore_limit o)
        /\ Config.max_retries cfg
           = Config.supplied_or 5 (Config.o_max_retries o)
        /\ Config.backoff_base cfg
           = Config.supplied_or 2%Q (Config.o_backoff_base o)
        /\ Config.backoff_jitter_max cfg
           = Config.supplied_or 5%Q (Config.o_backoff_jitter_max o)
        /\ Config.retrieval_top_k cfg
           = Config.supplied_or 5 (Config.o_retrieval_top_k o)).
Proof.
  intros o cfg H. split; [reflexivity|].
  unfold Config.construct in H.
  apply bind_some in H as (mji & Hmji & H).
  apply bind_some in H as (gct & Hgct & H).
  apply bind_some in H as (eap & Heap & H).
  apply bind_some in H as (jm & Hjm & H).
  apply bind_some in H as (lsl & Hlsl & H).
  apply bind_some in H as (mr & Hmr & H).
  apply bind_some in H as (bb & Hbb & H).
  apply bind_some in H as (bjm & Hbjm & H).
  apply bind_some in H as (rtk & Hrtk & H).
  injection H as <-. cbn [Config.max_judge_iterations
    Config.grounding_confidence_threshold Config.enable_adversarial_pass
    Config.judge_model Config.llm_semaphore_limit Config.max_retries
    Config.backoff_base Config.backoff_jitter_max Config.retrieval_top_k].
  apply field_some in Hmji as [Emji _], Hgct as [Egct Vgct],
    Heap as [Eeap _], Hjm as [Ejm _], Hlsl as [Elsl Vlsl], Hmr as [Emr Vmr],
    Hbb as [Ebb _], Hbjm as [Ebjm _], Hrtk as [Ertk Vrtk].
  split.
  - assert (Bgct : (0 <= gct)%Q /\ (gct <= 1)%Q).
    { destruct Vgct as [Hn|Hv].
      - rewrite Egct, Hn. cbn. split; discriminate.
      - unfold Config.ge_le_float in Hv.
        apply andb_true_iff in Hv as [H0 H1].
        split; apply Qle_bool_iff; assumption. }
    assert (Blsl : 1 <= lsl).
    { destruct Vlsl as [Hn|Hv]; [rewrite Elsl, Hn; cbn; lia|].
      apply Z.leb_le, Hv. }
    assert (Bmr : 1 <= mr).
    { destruct Vmr as [Hn|Hv]; [rewrite Emr, Hn; cbn; lia|].
      apply Z.leb_le, Hv. }
    assert (Brtk : 1 <= rtk).
    { destruct Vrtk as [Hn|Hv]; [rewrite Ertk, Hn; cbn; lia|].
      apply Z.leb_le, Hv. }
    tauto.
  - repeat split; assumption.
Qed.

Lemma config_defaults_and_bounds_witness :
  Config.construct (Config.only_max_judge_iterations 3)
  = Some {| Config.max_judge_iterations := 3;
            Config.grounding_confidence_threshold := 0.4%Q;
            Config.enable_adversarial_pass := false;
            Config.judge_model := "gemini-2.5-flash";
            Config.llm_semaphore_limit := 12;
            Config.max_retries := 5;
            Config.backoff_base := 2%Q;
            Config.backoff_jitter_max := 5%Q;
            Config.retrieval_top_k := 5 |}
  /\ Config.construct Config.no_overrides
     = Some {| Config.max_judge_iterations := 2;
               Config.grounding_confidence_threshold := 0.4%Q;
               Config.enable_adversarial_pass := false;
               Config.judge_model := "gemini-2.5-flash";
               Config.llm_semaphore_limit := 12;
               Config.max_retries := 5;
               Config.backoff_base := 2%Q;
               Config.backoff_jitter_max := 5%Q;
               Config.retrieval_top_k := 5 |}.
Proof.
  split; [reflexivity|].
  apply (config_defaults_and_bounds (Config.only_max_judge_iterations 3) _
           eq_refl).
Defined.

(** X19. get_verification_config is computed once: the first call that
    succeeds fixes the configuration, and every later call returns it
    whatever the environment has become, even one that would now be
    rejected; a call that fails stores nothing, so that the next call reads
    the environment again. *)
Theorem get_verification_config_is_cached :
  forall (cache : option Config.VerificationConfig)
         (env later : Config.overrides),
    let first := Cache.get_verification_config cache env in
    (forall cfg,
       fst first = Some cfg ->
       snd first = Some cfg
       /\ Cache.get_verification_config (snd first) later
          = (Some cfg, Some cfg))
    /\ (fst first = None ->
        cache = None /\ Config.construct env = None /\ snd first = None
        /\ fst (Cache.get_verification_config (snd first) later)
           = Config.construct later)
    /\ (cache = None -> fst first = Config.construct env).
Proof.
  intros cache env later. cbv zeta.
  unfold Cache.get_verification_config, Cache.lru_cache.
  destruct cache as [v|]; cbn [fst snd].
  - split; [|split].
    + intros cfg [= <-]. split; reflexivity.
    + discriminate.
    + discriminate.
  - destruct (Config.construct env) as [v|] eqn:He; cbn [fst snd].
    + split; [|split].
      * intros cfg [= <-]. split; reflexivity.
      * discriminate.
      * reflexivity.
    + split; [|split].
      * discriminate.
      * intros _. repeat split.
        destruct (Config.construct later); reflexivity.
      * reflexivity.
Qed.

Lemma get_verification_config_is_cached_witness :
  fst (Cache.get_verification_config None Config.no_overrides)
  = Config.construct Config.no_overrides
  /\ Config.construct Cache.sample_bad_overrides = None
  /\ fst (Cache.get_verification_config
            (snd (Cache.get_verification_config None Config.no_overrides))
            Cache.sample_bad_overrides)
     = Config.construct Config.no_overrides.
Proof.
  destruct (get_verification_config_is_cached None Config.no_overrides
              Cache.sample_bad_overrides) as (Hkept & _ & Hfirst).
  split; [apply Hfirst; reflexivity|]. split; [reflexivity|].
  destruct (Hkept _ eq_refl) as (_ & Hlater).
  rewrite Hlater. reflexivity.
Defined.

(** ** Telemetry: final verdicts and event stamps *)

Section Stamps.
Import Py Telemetry History.

Lemma step_event_clocks t k :
  map clock_of (events (step t k))
  = match k with
    | Reset _ => []
    | _ => match event_clock k with
           | Some c => map clock_of (events t) ++ [c]
           | None => map clock_of (events t)
           end
    end.
Proof.
  destruct k as [ | s t0 [m i] | s e n [m i] | s e d [m i] | | m0 a e [m i]
                | m0 e q [m i] | m0 [m i] | | f g it gr cf st hr n b [m i]
                | | ];
    cbn [step event_clock];
    unfold stage_start, stage_end, record_llm_retry, record_llm_error,
      record_llm_fallback, record_verification_verdict, record;
    cbn [events with_events with_stage_starts with_stage_durations with_llm
         with_pywhyllm with_verification with_var_id_resolve_misses
         record_llm_call record_pywhyllm_pair record_verification_final
         record_var_id_resolve_miss reset];
    rewrite ?map_app; reflexivity.
Qed.

Lemma run_event_clocks ks : forall t acc,
  map clock_of (events t) = acc ->
  map clock_of (events (run t ks))
  = fold_left
      (fun acc k =>
         match k with
         | Reset _ => []
         | _ => match event_clock k with
                | Some c => acc ++ [c]
                | None => acc
                end
         end) ks acc.
Proof.
  induction ks as [|k ks IH]; intros t acc H; [exact H|].
  rewrite run_cons. cbn [fold_left]. apply IH.
  rewrite step_event_clocks, H. reflexivity.
Qed.

End Stamps.

(** X20. A rejection is always recorded with a reason: record_verification_final
    with grounded false raises rejected_count by one, leaves grounded_count
    alone and appends an entry naming the edge from->to, the iterations used
    and the given reason, or unknown when the reason is absent or empty; with
    grounded true it raises grounded_count by one and records no reason.  In
    neither case is an event appended. *)
Theorem rejection_carries_reason :
  forall (t : Telemetry.PipelineTelemetry) (from_var to_var : string)
         (grounded : bool) (rejection_reason : option string)
         (iterations_used : Z),
    let t' := Telemetry.record_verification_final t from_var to_var grounded
                rejection_reason iterations_used in
    let v := Telemetry.verification t in
    let v' := Telemetry.verification t' in
    Telemetry.events t' = Telemetry.events t
    /\ (grounded = true ->
        Telemetry.grounded_count v' = Telemetry.grounded_count v + 1
        /\ Telemetry.rejected_count v' = Telemetry.rejected_count v
        /\ Telemetry.rejection_reasons v' = Telemetry.rejection_reasons v)
    /\ (grounded = false ->
        Telemetry.grounded_count v' = Telemetry.grounded_count v
        /\ Telemetry.rejected_count v' = Telemetry.rejected_count v + 1
        /\ exists entry reason,
             Telemetry.rejection_reasons v'
             = Telemetry.rejection_reasons v ++ [entry]
             /\ Py.dict_get entry "edge"
                = Some (Py.JStr (from_var ++ "->" ++ to_var)%string)
             /\ Py.dict_get entry "iterations" = Some (Py.JInt iterations_used)
             /\ Py.dict_get entry "reason" = Some (Py.JStr reason)
             /\ reason <> EmptyString
             /\ (forall r, rejection_reason = Some r -> r <> EmptyString ->
                   reason = r)
             /\ (rejection_reason = None \/ rejection_reason = Some EmptyString ->
                 reason = "unknown")).
Proof.
  intros t f g grounded rr it. cbv zeta.
  split; [reflexivity|]. split; intros ->; cbn.
  - repeat split.
  - split; [reflexivity|]. split; [reflexivity|].
    do 2 eexists. split; [reflexivity|].
    split; [reflexivity|]. split; [reflexivity|]. split; [reflexivity|].
    unfold Py.str_or, Py.str_truthy.
    destruct rr as [r|].
    + destruct (String.eqb_spec r EmptyString) as [->|Hne]; cbn [negb].
      * split; [discriminate|]. split.
        -- intros r' [= <-] Hr'. contradiction.
        -- reflexivity.
      * split; [exact Hne|]. split.
        -- intros r' [= <-] _. reflexivity.
        -- intros [H|H]; [discriminate H|]. injection H as ->. contradiction.
    + split; [discriminate|]. split; [discriminate | reflexivity].
Qed.

Lemma rejection_carries_reason_witness :
  false = false
  /\ Telemetry.rejected_count
       (Telemetry.verification
          (Telemetry.record_verification_final
             (Telemetry.init Telemetry.sample_clock) "a" "b" false
             (Some "no_evidence") 3))
     = Telemetry.rejected_count
         (Telemetry.verification (Telemetry.init Telemetry.sample_clock)) + 1.
Proof.
  split; [reflexivity|].
  destruct (rejection_carries_reason (Telemetry.init Telemetry.sample_clock)
              "a" "b" false (Some "no_evidence") 3) as (_ & _ & H).
  apply H. reflexivity.
Defined.

(** X21. Every event is stamped with the clock reading of the call that
    logged it, in call order: after any sequence of calls on a fresh
    instance, the (timestamp, wall_clock) pairs of the event log are exactly
    the readings handed to record by the event-appending calls made since the
    last reset, in the order of the calls. *)
Theorem events_stamped_in_call_order :
  forall (c : Telemetry.clock) (ks : list Telemetry.call),
    map History.clock_of
      (Telemetry.events (Telemetry.run (Telemetry.init c) ks))
    = History.event_clocks ks.
Proof.
  intros c ks.
  apply (run_event_clocks ks (Telemetry.init c) []). reflexivity.
Qed.
